(** * tuf/keys.py: key records, keyids, signing and verification dispatch

    A shallow embedding of [tuf/keys.py] and the properties its
    specification states about it.

    [keys.py] is Python 2 code: [str] is a byte string, so text and raw
    bytes are both modelled as [string] (a list of 8-bit characters).
    Python dictionaries with a fixed set of keys become records, raised
    exceptions become the [Raise] case of [result].

    The modules [keys.py] imports ([tuf.conf], [tuf.formats], [tuf.hash],
    [tuf.pycrypto_keys], [tuf.ed25519_keys]) are collaborators: they are
    gathered in an environment [Env] whose fields [keys.py] calls. *)

From Stdlib Require Import String Ascii List Bool ZArith NArith Lia.
Import ListNotations.
Local Open Scope string_scope.

(** ** Exceptions and results *)

(** The exception classes that reach a caller of [keys.py].  [FormatError]
    is raised by [tuf.formats] (its message is not produced here); the
    others carry the message built at the [raise] statement. *)
Inductive exn : Type :=
| FormatError
| CryptoError (message : string)
| Error (message : string)
| ValueError (message : string)
| TypeError (message : string)
| UnknownMethodError (message : string).

Inductive result (A : Type) : Type :=
| Ok (a : A)
| Raise (e : exn).

Arguments Ok {A} a.
Arguments Raise {A} e.

Definition bind {A B : Type} (c : result A) (k : A -> result B) : result B :=
  match c with
  | Ok a => k a
  | Raise e => Raise e
  end.

Notation "x <- c ;; k" := (bind c (fun x => k))
  (at level 61, c at next level, right associativity).
Notation "' p <- c ;; k" := (bind c (fun x => let p := x in k))
  (at level 61, p pattern, c at next level, right associativity).

(** Python's [x in l] for a list of strings. *)
Definition py_in (x : string) (l : list string) : bool :=
  existsb (String.eqb x) l.

(** Truth value of a [str]: the empty string is false. *)
Definition truthy (s : string) : bool :=
  match s with
  | EmptyString => false
  | String _ _ => true
  end.

(** ** binascii *)

Module binascii.

Definition hexdigit (n : N) : ascii :=
  match n with
  | 0%N => "0" | 1%N => "1" | 2%N => "2" | 3%N => "3"
  | 4%N => "4" | 5%N => "5" | 6%N => "6" | 7%N => "7"
  | 8%N => "8" | 9%N => "9" | 10%N => "a" | 11%N => "b"
  | 12%N => "c" | 13%N => "d" | 14%N => "e" | _ => "f"
  end%char.

(** Value of a hexadecimal digit, in either case. *)
Definition digit_value (c : ascii) : option N :=
  let n := N_of_ascii c in
  if ((48 <=? n) && (n <=? 57))%N then Some (n - 48)%N
  else if ((97 <=? n) && (n <=? 102))%N then Some (n - 87)%N
  else if ((65 <=? n) && (n <=? 70))%N then Some (n - 55)%N
  else None.

(** [binascii.hexlify]: two lowercase digits per byte, high nibble first. *)
Fixpoint hexlify (data : string) : string :=
  match data with
  | EmptyString => EmptyString
  | String c rest =>
      String (hexdigit (N_of_ascii c / 16))
        (String (hexdigit (N_of_ascii c mod 16)) (hexlify rest))
  end.

Fixpoint unhex_pairs (hexstr : string) : result string :=
  match hexstr with
  | EmptyString => Ok EmptyString
  | String _ EmptyString => Raise (TypeError "Odd-length string")
  | String hi (String lo rest) =>
      match digit_value hi, digit_value lo with
      | Some h, Some l =>
          tail <- unhex_pairs rest ;;
          Ok (String (ascii_of_N (16 * h + l)) tail)
      | _, _ => Raise (TypeError "Non-hexadecimal digit found")
      end
  end.

(** [binascii.unhexlify] (Python 2): the length is checked first, then
    the digits; both failures are [TypeError]s. *)
Definition unhexlify (hexstr : string) : result string :=
  if Nat.odd (String.length hexstr)
  then Raise (TypeError "Odd-length string")
  else unhex_pairs hexstr.

End binascii.

(** ** repr *)

Definition squote : ascii := "'"%char.
Definition dquote : ascii := "034"%char.
Definition backslash : ascii := "\"%char.

Fixpoint contains (c : ascii) (s : string) : bool :=
  match s with
  | EmptyString => false
  | String d rest => Ascii.eqb c d || contains c rest
  end.

Fixpoint repr_body (quote : ascii) (s : string) : string :=
  match s with
  | EmptyString => EmptyString
  | String c rest =>
      let n := N_of_ascii c in
      let tail := repr_body quote rest in
      if Ascii.eqb c quote || Ascii.eqb c backslash
      then String backslash (String c tail)
      else if (n =? 9)%N then String backslash (String "t" tail)
      else if (n =? 10)%N then String backslash (String "n" tail)
      else if (n =? 13)%N then String backslash (String "r" tail)
      else if ((n <? 32) || (127 <=? n))%N
      then String backslash (String "x"
             (String (binascii.hexdigit (n / 16))
                (String (binascii.hexdigit (n mod 16)) tail)))
      else String c tail
  end.

(** [repr] of a Python 2 [str]. *)
Definition repr (s : string) : string :=
  let quote :=
    if contains squote s && negb (contains dquote s) then dquote else squote in
  String quote (repr_body quote s ++ String quote EmptyString).

Fixpoint join (sep : string) (l : list string) : string :=
  match l with
  | [] => EmptyString
  | [x] => x
  | x :: rest => x ++ sep ++ join sep rest
  end.

(** [repr] of a list of [str]. *)
Definition repr_list (l : list string) : string :=
  "[" ++ join ", " (map repr l) ++ "]".

(** ** Data model *)

(** [{'public': ..., 'private': ...}] *)
Module KeyVal.
Record t : Type := mk { public : string; private : string }.
End KeyVal.

(** [{'keytype': ..., 'keyval': ...}], the form stored in metadata files. *)
Module KeyMeta.
Record t : Type := mk { keytype : string; keyval : KeyVal.t }.
End KeyMeta.

(** [{'keytype': ..., 'keyid': ..., 'keyval': ...}] *)
Module KeyDict.
Record t : Type := mk { keytype : string; keyid : string; keyval : KeyVal.t }.
End KeyDict.

(** [{'keyid': ..., 'method': ..., 'sig': ...}] *)
Module Signature.
Record t : Type := mk { keyid : string; method : string; sig : string }.
End Signature.

(** ** Collaborators *)

(** The random bytes a provider call draws from the operating system (for
    a key pair, for the salt of an RSA-PSS signature).  Python reads them
    as a side effect; here the call receives them as an argument. *)
Definition entropy : Type := string.

(** [tuf.conf] *)
Module conf.
Record t : Type := mk {
  RSA_CRYPTO_LIBRARY : string;
  ED25519_CRYPTO_LIBRARY : string
}.
End conf.

(** [tuf.formats]: each schema is the predicate its [check_match] tests;
    [check_match] raises [tuf.FormatError] when it is false. *)
Module formats.
Record t : Type := mk {
  RSAKEYBITS_SCHEMA : Z -> bool;
  KEYTYPE_SCHEMA : string -> bool;
  KEYVAL_SCHEMA : KeyVal.t -> bool;
  KEY_SCHEMA : KeyMeta.t -> bool;
  ANYKEY_SCHEMA : KeyDict.t -> bool;
  SIGNATURE_SCHEMA : Signature.t -> bool;
  encode_canonical : KeyMeta.t -> string
}.

Definition check_match (matches : bool) : result unit :=
  if matches then Ok tt else Raise FormatError.
End formats.

(** [tuf.hash]: [digest(algorithm)], one [update(data)], [hexdigest()]. *)
Module hash.
Record t : Type := mk {
  hexdigest : string -> string -> string
}.
End hash.

(** [tuf.pycrypto_keys]; the first argument of the two calls that draw
    random bytes is the [entropy] they draw. *)
Module pycrypto_keys.
Record t : Type := mk {
  (* generate_rsa_public_and_private(bits) -> (public, private) *)
  generate_rsa_public_and_private : entropy -> Z -> result (string * string);
  (* create_signature(private_key, data) -> (signature, method) *)
  create_signature : entropy -> string -> string -> result (string * string);
  (* verify_signature(signature, method, public_key, data) *)
  verify_signature : string -> string -> string -> string -> result bool
}.
End pycrypto_keys.

(** [tuf.ed25519_keys]; the last argument is [use_pynacl]. *)
Module ed25519_keys.
Record t : Type := mk {
  (* generate_public_and_private(use_pynacl) -> (public, private) *)
  generate_public_and_private : entropy -> bool -> result (string * string);
  (* create_signature(public_key, private_key, data, use_pynacl) *)
  create_signature : string -> string -> string -> bool -> result (string * string);
  (* verify_signature(public_key, method, signature, data, use_pynacl) *)
  verify_signature : string -> string -> string -> string -> bool -> result bool
}.
End ed25519_keys.

(** Everything [keys.py] finds when it is imported. [Crypto_imported] and
    [nacl_imported] tell whether the two [try: import ...] blocks at the
    top of the module succeeded. *)
Record Env : Type := mkEnv {
  tuf_conf : conf.t;
  Crypto_imported : bool;
  nacl_imported : bool;
  tuf_formats : formats.t;
  tuf_hash : hash.t;
  tuf_pycrypto_keys : pycrypto_keys.t;
  tuf_ed25519_keys : ed25519_keys.t
}.

(** ** keys.py *)

Definition _SUPPORTED_RSA_CRYPTO_LIBRARIES : list string := ["pycrypto"].

Definition _SUPPORTED_ED25519_CRYPTO_LIBRARIES : list string :=
  ["ed25519"; "pynacl"].

Definition _available_crypto_libraries (E : Env) : list string :=
  ["ed25519"]
    ++ (if Crypto_imported E then ["pycrypto"] else [])
    ++ (if nacl_imported E then ["pynacl"] else []).

Definition _KEY_ID_HASH_ALGORITHM : string := "sha256".

Definition _DEFAULT_RSA_KEY_BITS : Z := 3072.

Definition _RSA_CRYPTO_LIBRARY (E : Env) : string :=
  conf.RSA_CRYPTO_LIBRARY (tuf_conf E).

Definition _ED25519_CRYPTO_LIBRARY (E : Env) : string :=
  conf.ED25519_CRYPTO_LIBRARY (tuf_conf E).

Definition newline : string := String "010"%char EmptyString.
Definition quoted (s : string) : string :=
  String dquote (s ++ String dquote EmptyString).

Definition _check_crypto_libraries (E : Env) : result unit :=
  if negb (py_in (_RSA_CRYPTO_LIBRARY E) _SUPPORTED_RSA_CRYPTO_LIBRARIES)
  then Raise (CryptoError
         ("The " ++ repr (_RSA_CRYPTO_LIBRARY E) ++ " crypto library specified"
          ++ " in " ++ quoted "tuf.conf.RSA_CRYPTO_LIBRARY"
          ++ " is not supported." ++ newline
          ++ "Supported crypto libraries: "
          ++ repr_list _SUPPORTED_RSA_CRYPTO_LIBRARIES ++ "."))
  else if negb (py_in (_ED25519_CRYPTO_LIBRARY E)
                  _SUPPORTED_ED25519_CRYPTO_LIBRARIES)
  then Raise (CryptoError
         ("The " ++ repr (_ED25519_CRYPTO_LIBRARY E)
          ++ " crypto library specified"
          ++ " in " ++ quoted "tuf.conf.ED25519_CRYPTO_LIBRARY"
          ++ " is not supported." ++ newline
          ++ "Supported crypto libraries: "
          ++ repr_list _SUPPORTED_ED25519_CRYPTO_LIBRARIES ++ "."))
  else if negb (py_in (_RSA_CRYPTO_LIBRARY E) (_available_crypto_libraries E))
  then Raise (CryptoError
         ("The " ++ repr (_RSA_CRYPTO_LIBRARY E) ++ " crypto library specified"
          ++ " in " ++ quoted "tuf.conf.RSA_CRYPTO_LIBRARY"
          ++ " could not be imported."))
  else if negb (py_in (_ED25519_CRYPTO_LIBRARY E)
                  (_available_crypto_libraries E))
  then Raise (CryptoError
         ("The " ++ repr (_ED25519_CRYPTO_LIBRARY E)
          ++ " crypto library specified"
          ++ " in " ++ quoted "tuf.conf.ED25519_CRYPTO_LIBRARY"
          ++ " could not be imported."))
  else Ok tt.

Definition create_in_metadata_format
    (E : Env) (keytype : string) (key_value : KeyVal.t) (private : bool)
    : result KeyMeta.t :=
  _ <- formats.check_match (formats.KEYTYPE_SCHEMA (tuf_formats E) keytype) ;;
  _ <- formats.check_match (formats.KEYVAL_SCHEMA (tuf_formats E) key_value) ;;
  if private && truthy (KeyVal.private key_value)
  then Ok (KeyMeta.mk keytype key_value)
  else
    let public_key_value := KeyVal.mk (KeyVal.public key_value) "" in
    Ok (KeyMeta.mk keytype public_key_value).

Definition _get_keyid (E : Env) (keytype : string) (key_value : KeyVal.t)
    : result string :=
  rsakey_meta <- create_in_metadata_format E keytype key_value false ;;
  let rsakey_update_data :=
    formats.encode_canonical (tuf_formats E) rsakey_meta in
  let keyid :=
    hash.hexdigest (tuf_hash E) _KEY_ID_HASH_ALGORITHM rsakey_update_data in
  Ok keyid.

Definition create_from_metadata_format (E : Env) (key_metadata : KeyMeta.t)
    : result KeyDict.t :=
  _ <- formats.check_match (formats.KEY_SCHEMA (tuf_formats E) key_metadata) ;;
  let keytype := KeyMeta.keytype key_metadata in
  let key_value := KeyMeta.keyval key_metadata in
  keyid <- _get_keyid E keytype key_value ;;
  Ok (KeyDict.mk keytype keyid key_value).

Definition generate_rsa_key (E : Env) (rng : entropy) (bits : Z)
    : result KeyDict.t :=
  _ <- formats.check_match (formats.RSAKEYBITS_SCHEMA (tuf_formats E) bits) ;;
  _ <- _check_crypto_libraries E ;;
  let keytype := "rsa" in
  ' (public, private) <-
    (if _RSA_CRYPTO_LIBRARY E =? "pycrypto"
     then pycrypto_keys.generate_rsa_public_and_private
            (tuf_pycrypto_keys E) rng bits
     else Raise (ValueError
            ("Invalid crypto library: " ++ repr (_RSA_CRYPTO_LIBRARY E) ++ "."))) ;;
  let key_value := KeyVal.mk public "" in
  keyid <- _get_keyid E keytype key_value ;;
  let key_value := KeyVal.mk (KeyVal.public key_value) private in
  Ok (KeyDict.mk keytype keyid key_value).

Definition generate_ed25519_key (E : Env) (rng : entropy) : result KeyDict.t :=
  _ <- _check_crypto_libraries E ;;
  let keytype := "ed25519" in
  ' (public, private) <-
    (if py_in "pynacl" (_available_crypto_libraries E)
     then ed25519_keys.generate_public_and_private
            (tuf_ed25519_keys E) rng true
     else ed25519_keys.generate_public_and_private
            (tuf_ed25519_keys E) rng false) ;;
  let key_value := KeyVal.mk (binascii.hexlify public) "" in
  keyid <- _get_keyid E keytype key_value ;;
  let key_value :=
    KeyVal.mk (KeyVal.public key_value) (binascii.hexlify private) in
  Ok (KeyDict.mk keytype keyid key_value).

Definition create_signature
    (E : Env) (rng : entropy) (key_dict : KeyDict.t) (data : string)
    : result Signature.t :=
  _ <- formats.check_match (formats.ANYKEY_SCHEMA (tuf_formats E) key_dict) ;;
  _ <- _check_crypto_libraries E ;;
  let keytype := KeyDict.keytype key_dict in
  let public := KeyVal.public (KeyDict.keyval key_dict) in
  let private := KeyVal.private (KeyDict.keyval key_dict) in
  let keyid := KeyDict.keyid key_dict in
  ' (sig, method) <-
    (if keytype =? "rsa" then
       if _RSA_CRYPTO_LIBRARY E =? "pycrypto"
       then pycrypto_keys.create_signature (tuf_pycrypto_keys E) rng private data
       else Raise (Error
              ("Unsupported " ++ quoted "tuf.conf.RSA_CRYPTO_LIBRARY" ++ ": "
               ++ repr (_RSA_CRYPTO_LIBRARY E) ++ "."))
     else if keytype =? "ed25519" then
       public <- binascii.unhexlify public ;;
       private <- binascii.unhexlify private ;;
       if (_ED25519_CRYPTO_LIBRARY E =? "pynacl")
          && py_in "pynacl" (_available_crypto_libraries E)
       then ed25519_keys.create_signature
              (tuf_ed25519_keys E) public private data true
       else ed25519_keys.create_signature
              (tuf_ed25519_keys E) public private data false
     else Raise (TypeError "Invalid key type.")) ;;
  Ok (Signature.mk keyid method (binascii.hexlify sig)).

Definition verify_signature
    (E : Env) (key_dict : KeyDict.t) (signature : Signature.t) (data : string)
    : result bool :=
  _ <- formats.check_match (formats.ANYKEY_SCHEMA (tuf_formats E) key_dict) ;;
  _ <- formats.check_match (formats.SIGNATURE_SCHEMA (tuf_formats E) signature) ;;
  let method := Signature.method signature in
  let sig := Signature.sig signature in
  sig <- binascii.unhexlify sig ;;
  let public := KeyVal.public (KeyDict.keyval key_dict) in
  let keytype := KeyDict.keytype key_dict in
  if keytype =? "rsa" then
    if _RSA_CRYPTO_LIBRARY E =? "pycrypto"
    then pycrypto_keys.verify_signature
           (tuf_pycrypto_keys E) sig method public data
    else Raise (Error
           ("Unsupported " ++ quoted "tuf.conf.RSA_CRYPTO_LIBRARY" ++ ": "
            ++ repr (_RSA_CRYPTO_LIBRARY E) ++ "."))
  else if keytype =? "ed25519" then
    public <- binascii.unhexlify public ;;
    if (_RSA_CRYPTO_LIBRARY E =? "pynacl")
       && py_in "pynacl" (_available_crypto_libraries E)
    then ed25519_keys.verify_signature
           (tuf_ed25519_keys E) public method sig data true
    else ed25519_keys.verify_signature
           (tuf_ed25519_keys E) public method sig data false
  else Raise (TypeError "Unsupported key type.").

(** ** Notions the properties are stated with *)

(** The keyid as the specification words it:
    [hex(sha256(canonicalize({keytype, keyval: {public, private: ''}})))]. *)
Definition keyid_spec (E : Env) (keytype : string) (key_value : KeyVal.t)
    : string :=
  hash.hexdigest (tuf_hash E) "sha256"
    (formats.encode_canonical (tuf_formats E)
       (KeyMeta.mk keytype (KeyVal.mk (KeyVal.public key_value) ""))).

(** [key] is a record returned by [generate_rsa_key] or
    [generate_ed25519_key] in environment [E]. *)
Definition generated (E : Env) (key : KeyDict.t) : Prop :=
  (exists rng bits, generate_rsa_key E rng bits = Ok key)
  \/ (exists rng, generate_ed25519_key E rng = Ok key).

(** The value of [use_pynacl] that [create_signature] passes (line 569). *)
Definition signing_use_pynacl (E : Env) : bool :=
  (_ED25519_CRYPTO_LIBRARY E =? "pynacl")
  && py_in "pynacl" (_available_crypto_libraries E).

(** The value of [use_pynacl] that [verify_signature] passes (line 683). *)
Definition verifying_use_pynacl (E : Env) : bool :=
  (_RSA_CRYPTO_LIBRARY E =? "pynacl")
  && py_in "pynacl" (_available_crypto_libraries E).

(** The RSA provider is correct: with a key pair it generated, signing
    succeeds, and the signature verifies against the public key for the
    signed data and for no other data. *)
Definition rsa_provider_correct (P : pycrypto_keys.t) : Prop :=
  forall rng bits public private,
    pycrypto_keys.generate_rsa_public_and_private P rng bits
    = Ok (public, private) ->
    forall rng' data, exists sig method,
      pycrypto_keys.create_signature P rng' private data = Ok (sig, method)
      /\ pycrypto_keys.verify_signature P sig method public data = Ok true
      /\ forall data', data' <> data ->
           pycrypto_keys.verify_signature P sig method public data' = Ok false.

(** The Ed25519 provider is correct, whichever of its two engines each call
    is routed to by [use_pynacl]. *)
Definition ed25519_provider_correct (P : ed25519_keys.t) : Prop :=
  forall rng generate_pynacl public private,
    ed25519_keys.generate_public_and_private P rng generate_pynacl
    = Ok (public, private) ->
    forall data sign_pynacl, exists sig method,
      ed25519_keys.create_signature P public private data sign_pynacl
      = Ok (sig, method)
      /\ forall verify_pynacl,
           ed25519_keys.verify_signature P public method sig data verify_pynacl
           = Ok true
           /\ forall data', data' <> data ->
                ed25519_keys.verify_signature
                  P public method sig data' verify_pynacl = Ok false.

(** Every character of [s] is a hexadecimal digit. *)
Fixpoint all_hex (s : string) : bool :=
  match s with
  | EmptyString => true
  | String c rest =>
      match binascii.digit_value c with
      | Some _ => all_hex rest
      | None => false
      end
  end.

(** [s] is a hexadecimal encoding: an even number of hexadecimal digits. *)
Definition hex_string (s : string) : bool :=
  negb (Nat.odd (String.length s)) && all_hex s.

(** The public-only form of a key value. *)
Definition public_only (key_value : KeyVal.t) : KeyVal.t :=
  KeyVal.mk (KeyVal.public key_value) "".

(** The record a verifier holds for [key]: the same key type, keyid and
    public component, without the private component. *)
Definition public_record (key : KeyDict.t) : KeyDict.t :=
  KeyDict.mk (KeyDict.keytype key) (KeyDict.keyid key)
    (public_only (KeyDict.keyval key)).

(** ** A reference environment

    [tuf.formats], [tuf.hash] and the two crypto providers are modules of
    their own, outside [keys.py].  Every theorem below is stated for an
    arbitrary environment.  [doc_env] is one environment on which the
    functions above can be run: it follows what [keys.py] itself records
    about its collaborators, and uses stand-ins where [keys.py] records
    nothing. *)

(** [keys.py], lines 138-141 and 155-158: [RSAKEYBITS_SCHEMA] is an integer
    with a minimum value of 2048; the docstring of [create_in_metadata_format]
    gives ['rsa'] or ['ed25519'] for a key type.  The other schemas accept
    every value of their record type, and the canonical encoding is a
    stand-in that lists the three fields. *)
Definition doc_formats : formats.t :=
  formats.mk
    (fun bits => (2048 <=? bits)%Z)
    (fun keytype => py_in keytype ["rsa"; "ed25519"])
    (fun _ => true)
    (fun _ => true)
    (fun _ => true)
    (fun _ => true)
    (fun meta =>
       KeyMeta.keytype meta ++ "|" ++ KeyVal.public (KeyMeta.keyval meta)
         ++ "|" ++ KeyVal.private (KeyMeta.keyval meta)).

(** A stand-in for the digest: the hexadecimal form of the data itself. *)
Definition doc_hash : hash.t := hash.mk (fun _ data => binascii.hexlify data).

(** A stand-in for [tuf.pycrypto_keys].  Key generation raises
    [ValueError] when [bits] is less than 1024 or not a multiple of 256, as
    the docstring of [generate_rsa_key] and the comment at lines 155-158
    say of the library; otherwise the key pair is the entropy, a signature
    is the private key followed by the data, and verification compares. *)
Definition doc_pycrypto_keys : pycrypto_keys.t :=
  pycrypto_keys.mk
    (fun rng bits =>
       if ((bits <? 1024) || negb (bits mod 256 =? 0))%Z
       then Raise (ValueError "RSA modulus length must be a multiple of 256 and >= 1024")
       else Ok (rng, rng))
    (fun _ private_key data => Ok (private_key ++ data, "PyCrypto-PKCS#1 PSS"))
    (fun signature _ public_key data => Ok (signature =? public_key ++ data)).

(** A stand-in for [tuf.ed25519_keys], built like [doc_pycrypto_keys]; the
    method it returns names the engine that [use_pynacl] selected. *)
Definition doc_ed25519_keys : ed25519_keys.t :=
  ed25519_keys.mk
    (fun rng _ => Ok (rng, rng))
    (fun _ private_key data use_pynacl =>
       Ok (private_key ++ data,
           if use_pynacl then "ed25519-pynacl" else "ed25519-python"))
    (fun public_key _ signature data _ => Ok (signature =? public_key ++ data)).

Definition env_of (c : conf.t) (Crypto nacl : bool) : Env :=
  mkEnv c Crypto nacl doc_formats doc_hash doc_pycrypto_keys doc_ed25519_keys.

(** The default configuration, with PyCrypto installed and PyNaCl not. *)
Definition doc_env : Env := env_of (conf.mk "pycrypto" "ed25519") true false.

(** PyNaCl installed and selected for Ed25519. *)
Definition pynacl_env : Env := env_of (conf.mk "pycrypto" "pynacl") true true.

(** A configuration that names an Ed25519 library [keys.py] does not know. *)
Definition misconfigured_env : Env :=
  env_of (conf.mk "pycrypto" "bogus") true false.

(** A stand-in RSA provider whose key pairs share one public component:
    the public key is fixed and the private key is the entropy.  It gives
    generated records that agree on the public component and differ in the
    private one. *)
Definition shared_public_pycrypto_keys : pycrypto_keys.t :=
  pycrypto_keys.mk
    (fun rng _ => Ok ("PEM", rng))
    (pycrypto_keys.create_signature doc_pycrypto_keys)
    (pycrypto_keys.verify_signature doc_pycrypto_keys).

Definition shared_public_env : Env :=
  mkEnv (conf.mk "pycrypto" "ed25519") true false
    doc_formats doc_hash shared_public_pycrypto_keys doc_ed25519_keys.

(** ** Basic facts *)

Lemma bind_Ok_inv {A B : Type} (c : result A) (k : A -> result B) (b : B) :
  bind c k = Ok b -> exists a, c = Ok a /\ k a = Ok b.
Proof.
  destruct c as [a | e]; simpl; intros H.
  - exists a. split; [reflexivity | exact H].
  - discriminate H.
Qed.

Lemma check_match_Ok_inv (m : bool) (u : unit) :
  formats.check_match m = Ok u -> m = true.
Proof. destruct m; simpl; [reflexivity | discriminate]. Qed.

Lemma truthy_nonempty (s : string) : truthy s = true <-> s <> "".
Proof.
  destruct s; simpl; split; intros H; try reflexivity;
    try discriminate; try congruence.
Qed.

Lemma eqb_append_l (a x y : string) : (a ++ x =? a ++ y) = (x =? y).
Proof.
  induction a as [| c a IH]; simpl; [reflexivity |].
  rewrite Ascii.eqb_refl. exact IH.
Qed.

(** *** Hexadecimal round trip *)

Lemma hex_pair_roundtrip (c : ascii) :
  binascii.digit_value (binascii.hexdigit (N_of_ascii c / 16)) = Some (N_of_ascii c / 16)%N
  /\ binascii.digit_value (binascii.hexdigit (N_of_ascii c mod 16)) = Some (N_of_ascii c mod 16)%N
  /\ ascii_of_N (16 * (N_of_ascii c / 16) + N_of_ascii c mod 16) = c.
Proof.
  destruct c as [[|] [|] [|] [|] [|] [|] [|] [|]];
    vm_compute; repeat split; reflexivity.
Qed.

Lemma hexlify_length_even (data : string) :
  Nat.odd (String.length (binascii.hexlify data)) = false.
Proof.
  induction data as [| c rest IH]; simpl; [reflexivity |].
  destruct (String.length (binascii.hexlify rest)) as [| n]; [reflexivity |].
  exact IH.
Qed.

Lemma unhex_pairs_hexlify (data : string) :
  binascii.unhex_pairs (binascii.hexlify data) = Ok data.
Proof.
  induction data as [| c rest IH]; [reflexivity |].
  cbn [binascii.hexlify binascii.unhex_pairs].
  destruct (hex_pair_roundtrip c) as (Hhi & Hlo & Hc).
  rewrite Hhi, Hlo, IH. cbn [bind]. rewrite Hc. reflexivity.
Qed.

Lemma unhexlify_hexlify (data : string) :
  binascii.unhexlify (binascii.hexlify data) = Ok data.
Proof.
  unfold binascii.unhexlify.
  rewrite hexlify_length_even. apply unhex_pairs_hexlify.
Qed.

Lemma unhex_pairs_raises_TypeError (hexstr : string) (e : exn) :
  binascii.unhex_pairs hexstr = Raise e -> exists message, e = TypeError message.
Proof.
  revert e.
  induction hexstr as [hexstr IH] using
    (well_founded_induction
       (well_founded_ltof _ String.length)).
  intros e. destruct hexstr as [| hi [| lo rest]]; simpl.
  - discriminate.
  - intros H. injection H as <-. eauto.
  - destruct (binascii.digit_value hi), (binascii.digit_value lo);
      try (intros H; injection H as <-; eauto).
    destruct (binascii.unhex_pairs rest) as [tail | e'] eqn:Hrest; simpl.
    + discriminate.
    + intros H. injection H as <-.
      apply (IH rest); [unfold ltof; simpl; lia | exact Hrest].
Qed.

Lemma unhexlify_raises_TypeError (hexstr : string) (e : exn) :
  binascii.unhexlify hexstr = Raise e -> exists message, e = TypeError message.
Proof.
  unfold binascii.unhexlify.
  destruct (Nat.odd (String.length hexstr)).
  - intros H. injection H as <-. eauto.
  - apply unhex_pairs_raises_TypeError.
Qed.

Example hexlify_fox : binascii.hexlify "fox" = "666f78".
Proof. reflexivity. Qed.

Example unhexlify_mixed_case : binascii.unhexlify "4A6f" = Ok "Jo".
Proof. reflexivity. Qed.

Example unhexlify_odd :
  binascii.unhexlify "abc" = Raise (TypeError "Odd-length string").
Proof. reflexivity. Qed.

Example repr_pycrypto : repr "pycrypto" = "'pycrypto'".
Proof. reflexivity. Qed.

Example repr_supported_ed25519 :
  repr_list _SUPPORTED_ED25519_CRYPTO_LIBRARIES = "['ed25519', 'pynacl']".
Proof. reflexivity. Qed.

(** *** The availability check *)

Lemma check_crypto_libraries_inv (E : Env) (u : unit) :
  _check_crypto_libraries E = Ok u ->
  _RSA_CRYPTO_LIBRARY E = "pycrypto"
  /\ py_in (_ED25519_CRYPTO_LIBRARY E) _SUPPORTED_ED25519_CRYPTO_LIBRARIES = true
  /\ py_in (_RSA_CRYPTO_LIBRARY E) (_available_crypto_libraries E) = true
  /\ py_in (_ED25519_CRYPTO_LIBRARY E) (_available_crypto_libraries E) = true.
Proof.
  unfold _check_crypto_libraries.
  destruct (py_in (_RSA_CRYPTO_LIBRARY E) _SUPPORTED_RSA_CRYPTO_LIBRARIES)
    eqn:Hrsa; cbn [negb]; [| discriminate].
  destruct (py_in (_ED25519_CRYPTO_LIBRARY E)
              _SUPPORTED_ED25519_CRYPTO_LIBRARIES) eqn:Hed; cbn [negb];
    [| discriminate].
  destruct (py_in (_RSA_CRYPTO_LIBRARY E) (_available_crypto_libraries E))
    eqn:Hrsa'; cbn [negb]; [| discriminate].
  destruct (py_in (_ED25519_CRYPTO_LIBRARY E) (_available_crypto_libraries E))
    eqn:Hed'; cbn [negb]; [| discriminate].
  intros _. repeat split.
  unfold py_in, _SUPPORTED_RSA_CRYPTO_LIBRARIES in Hrsa.
  cbn [existsb] in Hrsa.
  rewrite orb_false_r in Hrsa. apply String.eqb_eq in Hrsa. exact Hrsa.
Qed.

Example check_doc_env : _check_crypto_libraries doc_env = Ok tt.
Proof. reflexivity. Qed.

Example check_pynacl_env : _check_crypto_libraries pynacl_env = Ok tt.
Proof. reflexivity. Qed.

Example check_misconfigured_env :
  _check_crypto_libraries misconfigured_env
  = Raise (CryptoError
      ("The 'bogus' crypto library specified in "
       ++ quoted "tuf.conf.ED25519_CRYPTO_LIBRARY" ++ " is not supported."
       ++ newline ++ "Supported crypto libraries: ['ed25519', 'pynacl'].")).
Proof. reflexivity. Qed.

(** ** Key identifiers *)

Lemma create_in_metadata_format_valid
    (E : Env) (keytype : string) (key_value : KeyVal.t) (private : bool) :
  formats.KEYTYPE_SCHEMA (tuf_formats E) keytype = true ->
  formats.KEYVAL_SCHEMA (tuf_formats E) key_value = true ->
  create_in_metadata_format E keytype key_value private
  = if private && truthy (KeyVal.private key_value)
    then Ok (KeyMeta.mk keytype key_value)
    else Ok (KeyMeta.mk keytype (KeyVal.mk (KeyVal.public key_value) "")).
Proof.
  intros Hkt Hkv. unfold create_in_metadata_format.
  rewrite Hkt, Hkv. reflexivity.
Qed.

Lemma get_keyid_valid (E : Env) (keytype : string) (key_value : KeyVal.t) :
  formats.KEYTYPE_SCHEMA (tuf_formats E) keytype = true ->
  formats.KEYVAL_SCHEMA (tuf_formats E) key_value = true ->
  _get_keyid E keytype key_value = Ok (keyid_spec E keytype key_value).
Proof.
  intros Hkt Hkv. unfold _get_keyid.
  rewrite (create_in_metadata_format_valid E keytype key_value false Hkt Hkv).
  reflexivity.
Qed.

Lemma get_keyid_Ok_inv
    (E : Env) (keytype : string) (key_value : KeyVal.t) (keyid : string) :
  _get_keyid E keytype key_value = Ok keyid ->
  formats.KEYTYPE_SCHEMA (tuf_formats E) keytype = true
  /\ formats.KEYVAL_SCHEMA (tuf_formats E) key_value = true
  /\ keyid = keyid_spec E keytype key_value.
Proof.
  unfold _get_keyid, create_in_metadata_format. intros H.
  destruct (formats.KEYTYPE_SCHEMA (tuf_formats E) keytype);
    [| discriminate H].
  destruct (formats.KEYVAL_SCHEMA (tuf_formats E) key_value);
    [| discriminate H].
  cbn in H. injection H as <-. repeat split.
Qed.

(** C1.  For a key type and a key value that pass the format checks,
    [_get_keyid] returns the hexadecimal SHA-256 digest of the canonical
    encoding of [{keytype, keyval: {public, private: ''}}]; and any other
    key value with the same public component, whatever its private
    component, gets the same keyid. *)
Theorem get_keyid_public_only
    (E : Env) (keytype : string) (key_value : KeyVal.t) :
  formats.KEYTYPE_SCHEMA (tuf_formats E) keytype = true ->
  formats.KEYVAL_SCHEMA (tuf_formats E) key_value = true ->
  _get_keyid E keytype key_value = Ok (keyid_spec E keytype key_value)
  /\ forall key_value' : KeyVal.t,
       formats.KEYVAL_SCHEMA (tuf_formats E) key_value' = true ->
       KeyVal.public key_value' = KeyVal.public key_value ->
       _get_keyid E keytype key_value' = _get_keyid E keytype key_value.
Proof.
  intros Hkt Hkv. split.
  - apply get_keyid_valid; assumption.
  - intros key_value' Hkv' Hpub.
    rewrite !get_keyid_valid by assumption.
    unfold keyid_spec. rewrite Hpub. reflexivity.
Qed.

Lemma get_keyid_public_only_witness :
  _get_keyid doc_env "rsa" (KeyVal.mk "PEM" "secret")
  = Ok (keyid_spec doc_env "rsa" (KeyVal.mk "PEM" "secret"))
  /\ _get_keyid doc_env "rsa" (KeyVal.mk "PEM" "")
     = _get_keyid doc_env "rsa" (KeyVal.mk "PEM" "secret").
Proof.
  destruct (get_keyid_public_only doc_env "rsa" (KeyVal.mk "PEM" "secret")
              eq_refl eq_refl) as [Hid Hsame].
  split.
  - exact Hid.
  - apply Hsame; reflexivity.
Defined.

Example keyid_doc_env :
  _get_keyid doc_env "rsa" (KeyVal.mk "PEM" "secret") = Ok "7273617c50454d7c".
Proof. reflexivity. Qed.

(** ** Metadata format *)

(** C7.  For a key type and a key value that pass the format checks,
    [create_in_metadata_format] never fails; it returns
    [{keytype, keyval}] as given when the flag is set and the private
    component is non-empty, and [{keytype, keyval: {public, private: ''}}]
    in every other case, so that a set flag on a public-only key value is
    downgraded without an error.  For a non-empty private component the
    result is the given key value exactly when the flag is set. *)
Theorem create_in_metadata_format_cases
    (E : Env) (keytype : string) (key_value : KeyVal.t) (private : bool) :
  formats.KEYTYPE_SCHEMA (tuf_formats E) keytype = true ->
  formats.KEYVAL_SCHEMA (tuf_formats E) key_value = true ->
  (private = true /\ KeyVal.private key_value <> "" ->
   create_in_metadata_format E keytype key_value private
   = Ok (KeyMeta.mk keytype key_value))
  /\ (private = false \/ KeyVal.private key_value = "" ->
      create_in_metadata_format E keytype key_value private
      = Ok (KeyMeta.mk keytype (KeyVal.mk (KeyVal.public key_value) "")))
  /\ (KeyVal.private key_value <> "" ->
      (create_in_metadata_format E keytype key_value private
       = Ok (KeyMeta.mk keytype key_value)
       <-> private = true)).
Proof.
  intros Hkt Hkv.
  rewrite (create_in_metadata_format_valid E keytype key_value private Hkt Hkv).
  destruct key_value as [public priv]. cbn [KeyVal.private KeyVal.public].
  split; [| split].
  - intros [-> Hne]. apply truthy_nonempty in Hne. rewrite Hne. reflexivity.
  - intros [-> | ->]; [reflexivity |].
    rewrite andb_false_r. reflexivity.
  - intros Hne. pose proof Hne as Ht. apply truthy_nonempty in Ht. rewrite Ht.
    destruct private; cbn [andb]; split; intros H;
      try reflexivity; try discriminate H.
    injection H as H. congruence.
Qed.

Lemma create_in_metadata_format_cases_witness :
  create_in_metadata_format doc_env "ed25519" (KeyVal.mk "ab" "") true
  = Ok (KeyMeta.mk "ed25519" (KeyVal.mk "ab" ""))
  /\ create_in_metadata_format doc_env "ed25519" (KeyVal.mk "ab" "cd") true
     = Ok (KeyMeta.mk "ed25519" (KeyVal.mk "ab" "cd"))
  /\ create_in_metadata_format doc_env "ed25519" (KeyVal.mk "ab" "cd") false
     = Ok (KeyMeta.mk "ed25519" (KeyVal.mk "ab" "")).
Proof.
  pose proof (create_in_metadata_format_cases
                doc_env "ed25519" (KeyVal.mk "ab" "") true eq_refl eq_refl)
    as (_ & Hdown & _).
  pose proof (create_in_metadata_format_cases
                doc_env "ed25519" (KeyVal.mk "ab" "cd") true eq_refl eq_refl)
    as (Hkeep & _ & _).
  pose proof (create_in_metadata_format_cases
                doc_env "ed25519" (KeyVal.mk "ab" "cd") false eq_refl eq_refl)
    as (_ & Hstrip & _).
  split; [| split].
  - apply Hdown. right. reflexivity.
  - apply Hkeep. split; [reflexivity | discriminate].
  - apply Hstrip. left. reflexivity.
Defined.

(** ** Generated keys *)

Lemma generate_rsa_key_Ok_inv
    (E : Env) (rng : entropy) (bits : Z) (key : KeyDict.t) :
  generate_rsa_key E rng bits = Ok key ->
  exists public private keyid,
    formats.RSAKEYBITS_SCHEMA (tuf_formats E) bits = true
    /\ _check_crypto_libraries E = Ok tt
    /\ pycrypto_keys.generate_rsa_public_and_private
         (tuf_pycrypto_keys E) rng bits = Ok (public, private)
    /\ _get_keyid E "rsa" (KeyVal.mk public "") = Ok keyid
    /\ key = KeyDict.mk "rsa" keyid (KeyVal.mk public private).
Proof.
  unfold generate_rsa_key. intros H.
  apply bind_Ok_inv in H as (u1 & Hbits & H).
  apply check_match_Ok_inv in Hbits.
  apply bind_Ok_inv in H as (u2 & Hcheck & H).
  destruct u2.
  destruct (check_crypto_libraries_inv E tt Hcheck) as (Hrsa & _).
  rewrite Hrsa in H. cbn [String.eqb Ascii.eqb Bool.eqb] in H.
  apply bind_Ok_inv in H as ([public private] & Hgen & H).
  cbn beta iota zeta in H.
  apply bind_Ok_inv in H as (keyid & Hid & H).
  injection H as <-.
  exists public, private, keyid. cbn [KeyVal.public].
  repeat split; assumption.
Qed.

Lemma generate_ed25519_key_Ok_inv
    (E : Env) (rng : entropy) (key : KeyDict.t) :
  generate_ed25519_key E rng = Ok key ->
  exists public private keyid,
    _check_crypto_libraries E = Ok tt
    /\ ed25519_keys.generate_public_and_private (tuf_ed25519_keys E) rng
         (py_in "pynacl" (_available_crypto_libraries E))
       = Ok (public, private)
    /\ _get_keyid E "ed25519" (KeyVal.mk (binascii.hexlify public) "")
       = Ok keyid
    /\ key = KeyDict.mk "ed25519" keyid
               (KeyVal.mk (binascii.hexlify public) (binascii.hexlify private)).
Proof.
  unfold generate_ed25519_key. intros H.
  apply bind_Ok_inv in H as (u & Hcheck & H). destruct u.
  apply bind_Ok_inv in H as ([public private] & Hgen & H).
  cbn beta iota zeta in H.
  apply bind_Ok_inv in H as (keyid & Hid & H).
  injection H as <-.
  exists public, private, keyid. cbn [KeyVal.public].
  repeat split; try assumption.
  destruct (py_in "pynacl" (_available_crypto_libraries E)); exact Hgen.
Qed.

(** The keyid of a generated record is the one [_get_keyid] derives from its
    key type and the public-only form of its key value, which passed the
    format checks when the record was generated. *)
Lemma generated_keyid (E : Env) (key : KeyDict.t) :
  generated E key ->
  formats.KEYTYPE_SCHEMA (tuf_formats E) (KeyDict.keytype key) = true
  /\ formats.KEYVAL_SCHEMA (tuf_formats E)
       (KeyVal.mk (KeyVal.public (KeyDict.keyval key)) "") = true
  /\ KeyDict.keyid key = keyid_spec E (KeyDict.keytype key) (KeyDict.keyval key).
Proof.
  intros [(rng & bits & H) | (rng & H)].
  - apply generate_rsa_key_Ok_inv in H
      as (public & private & keyid & _ & _ & _ & Hid & ->).
    cbn [KeyDict.keyid KeyDict.keytype KeyDict.keyval KeyVal.public].
    apply get_keyid_Ok_inv in Hid as (Hkt & Hkv & Hid).
    repeat split; assumption.
  - apply generate_ed25519_key_Ok_inv in H
      as (public & private & keyid & _ & _ & Hid & ->).
    cbn [KeyDict.keyid KeyDict.keytype KeyDict.keyval KeyVal.public].
    apply get_keyid_Ok_inv in Hid as (Hkt & Hkv & Hid).
    repeat split; assumption.
Qed.

Example generate_rsa_key_doc_env :
  generate_rsa_key doc_env "seed" 2048
  = Ok (KeyDict.mk "rsa" "7273617c736565647c" (KeyVal.mk "seed" "seed")).
Proof. reflexivity. Qed.

Example generate_ed25519_key_doc_env :
  generate_ed25519_key doc_env "k"
  = Ok (KeyDict.mk "ed25519" "656432353531397c36627c" (KeyVal.mk "6b" "6b")).
Proof. reflexivity. Qed.

(** C6.  For a generated key record [key] with non-empty private material
    that the format checks accept, converting it to metadata format with the
    private key included and back yields a record with the same keyid and
    the same key value (the same record); the keyid it re-derives is the one
    [_get_keyid] gives for the public-only form, which is how generation
    computes it. *)
Theorem metadata_format_roundtrip (E : Env) (key : KeyDict.t) :
  generated E key ->
  KeyVal.private (KeyDict.keyval key) <> "" ->
  formats.KEYVAL_SCHEMA (tuf_formats E) (KeyDict.keyval key) = true ->
  formats.KEY_SCHEMA (tuf_formats E)
    (KeyMeta.mk (KeyDict.keytype key) (KeyDict.keyval key)) = true ->
  exists (meta : KeyMeta.t) (key' : KeyDict.t),
    create_in_metadata_format E (KeyDict.keytype key) (KeyDict.keyval key) true
    = Ok meta
    /\ create_from_metadata_format E meta = Ok key'
    /\ KeyDict.keyid key' = KeyDict.keyid key
    /\ KeyDict.keyval key' = KeyDict.keyval key
    /\ key' = key
    /\ _get_keyid E (KeyDict.keytype key)
         (KeyVal.mk (KeyVal.public (KeyDict.keyval key)) "")
       = Ok (KeyDict.keyid key').
Proof.
  intros Hgen Hpriv Hkv Hmeta.
  destruct (generated_keyid E key Hgen) as (Hkt & Hpub & Hid).
  exists (KeyMeta.mk (KeyDict.keytype key) (KeyDict.keyval key)), key.
  split; [| split; [| repeat split]].
  - rewrite create_in_metadata_format_valid by assumption.
    apply truthy_nonempty in Hpriv. rewrite Hpriv. reflexivity.
  - unfold create_from_metadata_format. rewrite Hmeta.
    cbn [formats.check_match bind KeyMeta.keytype KeyMeta.keyval].
    rewrite get_keyid_valid by assumption.
    cbn [bind]. rewrite <- Hid. destruct key; reflexivity.
  - rewrite get_keyid_valid by assumption. rewrite Hid. reflexivity.
Qed.

Lemma metadata_format_roundtrip_witness :
  exists (meta : KeyMeta.t) (key' : KeyDict.t),
    create_in_metadata_format doc_env "ed25519" (KeyVal.mk "6b" "6b") true
    = Ok meta
    /\ create_from_metadata_format doc_env meta = Ok key'
    /\ KeyDict.keyid key' = "656432353531397c36627c"
    /\ KeyDict.keyval key' = KeyVal.mk "6b" "6b"
    /\ key' = KeyDict.mk "ed25519" "656432353531397c36627c" (KeyVal.mk "6b" "6b")
    /\ _get_keyid doc_env "ed25519" (KeyVal.mk "6b" "")
       = Ok (KeyDict.keyid key').
Proof.
  apply (metadata_format_roundtrip doc_env
           (KeyDict.mk "ed25519" "656432353531397c36627c" (KeyVal.mk "6b" "6b"))).
  - right. exists "k". reflexivity.
  - discriminate.
  - reflexivity.
  - reflexivity.
Defined.

(** ** Signing and verification dispatch *)

Lemma if_same_call {A : Type} (b : bool) (f : bool -> A) :
  (if b then f true else f false) = f b.
Proof. destruct b; reflexivity. Qed.

Lemma create_signature_rsa
    (E : Env) (rng : entropy) (key_dict : KeyDict.t) (data : string) :
  formats.ANYKEY_SCHEMA (tuf_formats E) key_dict = true ->
  _check_crypto_libraries E = Ok tt ->
  KeyDict.keytype key_dict = "rsa" ->
  create_signature E rng key_dict data
  = (' (sig, method) <-
       pycrypto_keys.create_signature (tuf_pycrypto_keys E) rng
         (KeyVal.private (KeyDict.keyval key_dict)) data ;;
     Ok (Signature.mk (KeyDict.keyid key_dict) method (binascii.hexlify sig))).
Proof.
  intros Hkey Hcheck Hkt. unfold create_signature.
  rewrite Hkey, Hcheck, Hkt.
  destruct (check_crypto_libraries_inv E tt Hcheck) as (-> & _).
  reflexivity.
Qed.

Lemma create_signature_ed25519
    (E : Env) (rng : entropy) (key_dict : KeyDict.t) (data : string)
    (public private : string) :
  formats.ANYKEY_SCHEMA (tuf_formats E) key_dict = true ->
  _check_crypto_libraries E = Ok tt ->
  KeyDict.keytype key_dict = "ed25519" ->
  binascii.unhexlify (KeyVal.public (KeyDict.keyval key_dict)) = Ok public ->
  binascii.unhexlify (KeyVal.private (KeyDict.keyval key_dict)) = Ok private ->
  create_signature E rng key_dict data
  = (' (sig, method) <-
       ed25519_keys.create_signature (tuf_ed25519_keys E)
         public private data (signing_use_pynacl E) ;;
     Ok (Signature.mk (KeyDict.keyid key_dict) method (binascii.hexlify sig))).
Proof.
  intros Hkey Hcheck Hkt Hpub Hpriv. unfold create_signature.
  rewrite Hkey, Hcheck, Hkt, Hpub, Hpriv.
  cbn [formats.check_match bind String.eqb Ascii.eqb Bool.eqb].
  fold (signing_use_pynacl E).
  rewrite (if_same_call (signing_use_pynacl E)
             (ed25519_keys.create_signature (tuf_ed25519_keys E)
                public private data)).
  reflexivity.
Qed.

Lemma verify_signature_rsa
    (E : Env) (key_dict : KeyDict.t) (signature : Signature.t) (data : string)
    (sig : string) :
  formats.ANYKEY_SCHEMA (tuf_formats E) key_dict = true ->
  formats.SIGNATURE_SCHEMA (tuf_formats E) signature = true ->
  binascii.unhexlify (Signature.sig signature) = Ok sig ->
  KeyDict.keytype key_dict = "rsa" ->
  _RSA_CRYPTO_LIBRARY E = "pycrypto" ->
  verify_signature E key_dict signature data
  = pycrypto_keys.verify_signature (tuf_pycrypto_keys E)
      sig (Signature.method signature)
      (KeyVal.public (KeyDict.keyval key_dict)) data.
Proof.
  intros Hkey Hsig Hraw Hkt Hrsa. unfold verify_signature.
  rewrite Hkey, Hsig, Hraw, Hkt, Hrsa. reflexivity.
Qed.

Lemma verify_signature_ed25519
    (E : Env) (key_dict : KeyDict.t) (signature : Signature.t) (data : string)
    (sig public : string) :
  formats.ANYKEY_SCHEMA (tuf_formats E) key_dict = true ->
  formats.SIGNATURE_SCHEMA (tuf_formats E) signature = true ->
  binascii.unhexlify (Signature.sig signature) = Ok sig ->
  KeyDict.keytype key_dict = "ed25519" ->
  binascii.unhexlify (KeyVal.public (KeyDict.keyval key_dict)) = Ok public ->
  verify_signature E key_dict signature data
  = ed25519_keys.verify_signature (tuf_ed25519_keys E)
      public (Signature.method signature) sig data (verifying_use_pynacl E).
Proof.
  intros Hkey Hsig Hraw Hkt Hpub. unfold verify_signature.
  rewrite Hkey, Hsig, Hraw, Hkt, Hpub.
  cbn [formats.check_match bind String.eqb Ascii.eqb Bool.eqb].
  fold (verifying_use_pynacl E).
  apply (if_same_call (verifying_use_pynacl E)
           (ed25519_keys.verify_signature (tuf_ed25519_keys E)
              public (Signature.method signature) sig data)).
Qed.

(** *** The reference providers are correct *)

Lemma doc_pycrypto_keys_correct : rsa_provider_correct doc_pycrypto_keys.
Proof.
  intros rng bits public private Hgen rng' data.
  cbn in Hgen.
  destruct ((bits <? 1024)%Z || negb (bits mod 256 =? 0)%Z);
    [discriminate Hgen |].
  injection Hgen as <- <-.
  exists (rng ++ data), "PyCrypto-PKCS#1 PSS". cbn.
  split; [reflexivity |]. split.
  - rewrite String.eqb_refl. reflexivity.
  - intros data' Hne. rewrite eqb_append_l.
    apply String.eqb_neq in Hne. rewrite String.eqb_sym, Hne. reflexivity.
Qed.

Lemma doc_ed25519_keys_correct : ed25519_provider_correct doc_ed25519_keys.
Proof.
  intros rng generate_pynacl public private Hgen data sign_pynacl.
  cbn in Hgen. injection Hgen as <- <-.
  exists (rng ++ data),
    (if sign_pynacl then "ed25519-pynacl" else "ed25519-python").
  cbn. split; [reflexivity |].
  intros _. split.
  - rewrite String.eqb_refl. reflexivity.
  - intros data' Hne. rewrite eqb_append_l.
    apply String.eqb_neq in Hne. rewrite String.eqb_sym, Hne. reflexivity.
Qed.

(** C2.  With correct crypto providers, and a format validator that accepts
    the generated record and the signature records made from it: for every
    key record [key] produced by [generate_rsa_key] or
    [generate_ed25519_key] and every byte string [data],
    [create_signature] returns a signature record that [verify_signature]
    accepts for [data] (it returns [True]) and rejects for every other byte
    string (it returns [False]). *)
Theorem sign_then_verify
    (E : Env) (key : KeyDict.t) (rng : entropy) (data : string) :
  rsa_provider_correct (tuf_pycrypto_keys E) ->
  ed25519_provider_correct (tuf_ed25519_keys E) ->
  generated E key ->
  formats.ANYKEY_SCHEMA (tuf_formats E) key = true ->
  (forall signature,
     create_signature E rng key data = Ok signature ->
     formats.SIGNATURE_SCHEMA (tuf_formats E) signature = true) ->
  exists signature,
    create_signature E rng key data = Ok signature
    /\ verify_signature E key signature data = Ok true
    /\ forall data', data' <> data ->
         verify_signature E key signature data' = Ok false.
Proof.
  intros Hrsa Hed Hgen Hkey Hconform.
  destruct Hgen as [(rng0 & bits & H) | (rng0 & H)].
  - apply generate_rsa_key_Ok_inv in H
      as (public & private & keyid & _ & Hcheck & Hpair & _ & ->).
    destruct (Hrsa rng0 bits public private Hpair rng data)
      as (sig & method & Hsign & Hsame & Hother).
    pose proof (create_signature_rsa E rng _ data Hkey Hcheck eq_refl)
      as Hcreate.
    cbn [KeyDict.keyval KeyDict.keyid KeyVal.private] in Hcreate.
    rewrite Hsign in Hcreate. cbn [bind] in Hcreate.
    exists (Signature.mk keyid method (binascii.hexlify sig)).
    split; [exact Hcreate |].
    pose proof (Hconform _ Hcreate) as Hsig.
    destruct (check_crypto_libraries_inv E tt Hcheck) as (Hlib & _).
    assert (Hverify : forall d,
      verify_signature E (KeyDict.mk "rsa" keyid (KeyVal.mk public private))
        (Signature.mk keyid method (binascii.hexlify sig)) d
      = pycrypto_keys.verify_signature (tuf_pycrypto_keys E) sig method public d).
    { intros d.
      apply (verify_signature_rsa E _ _ d sig Hkey Hsig);
        [apply unhexlify_hexlify | reflexivity | exact Hlib]. }
    split.
    + rewrite Hverify. exact Hsame.
    + intros data' Hne. rewrite Hverify. apply Hother. exact Hne.
  - apply generate_ed25519_key_Ok_inv in H
      as (public & private & keyid & Hcheck & Hpair & _ & ->).
    destruct (Hed rng0 _ public private Hpair data (signing_use_pynacl E))
      as (sig & method & Hsign & Hverified).
    pose proof (create_signature_ed25519 E rng _ data public private
                  Hkey Hcheck eq_refl
                  (unhexlify_hexlify public) (unhexlify_hexlify private))
      as Hcreate.
    cbn [KeyDict.keyid] in Hcreate.
    rewrite Hsign in Hcreate. cbn [bind] in Hcreate.
    exists (Signature.mk keyid method (binascii.hexlify sig)).
    split; [exact Hcreate |].
    pose proof (Hconform _ Hcreate) as Hsig.
    assert (Hverify : forall d,
      verify_signature E
        (KeyDict.mk "ed25519" keyid
           (KeyVal.mk (binascii.hexlify public) (binascii.hexlify private)))
        (Signature.mk keyid method (binascii.hexlify sig)) d
      = ed25519_keys.verify_signature (tuf_ed25519_keys E)
          public method sig d (verifying_use_pynacl E)).
    { intros d.
      apply (verify_signature_ed25519 E _ _ d sig public Hkey Hsig);
        [apply unhexlify_hexlify | reflexivity | apply unhexlify_hexlify]. }
    destruct (Hverified (verifying_use_pynacl E)) as [Hsame Hother].
    split.
    + rewrite Hverify. exact Hsame.
    + intros data' Hne. rewrite Hverify. apply Hother. exact Hne.
Qed.

Lemma sign_then_verify_witness :
  exists signature,
    create_signature pynacl_env "salt"
      (KeyDict.mk "ed25519" "656432353531397c36627c" (KeyVal.mk "6b" "6b"))
      "The quick brown fox jumps over the lazy dog"
    = Ok signature
    /\ verify_signature pynacl_env
         (KeyDict.mk "ed25519" "656432353531397c36627c" (KeyVal.mk "6b" "6b"))
         signature "The quick brown fox jumps over the lazy dog"
       = Ok true
    /\ forall data',
         data' <> "The quick brown fox jumps over the lazy dog" ->
         verify_signature pynacl_env
           (KeyDict.mk "ed25519" "656432353531397c36627c" (KeyVal.mk "6b" "6b"))
           signature data'
         = Ok false.
Proof.
  apply (sign_then_verify pynacl_env
           (KeyDict.mk "ed25519" "656432353531397c36627c" (KeyVal.mk "6b" "6b"))
           "salt" "The quick brown fox jumps over the lazy dog").
  - exact doc_pycrypto_keys_correct.
  - exact doc_ed25519_keys_correct.
  - right. exists "k". reflexivity.
  - reflexivity.
  - intros signature _. reflexivity.
Defined.

Example sign_fox_doc_env :
  create_signature doc_env "salt"
    (KeyDict.mk "rsa" "7273617c736565647c" (KeyVal.mk "seed" "seed")) "fox"
  = Ok (Signature.mk "7273617c736565647c" "PyCrypto-PKCS#1 PSS" "73656564666f78").
Proof. reflexivity. Qed.

Example verify_fox_doc_env :
  verify_signature doc_env
    (KeyDict.mk "rsa" "7273617c736565647c" (KeyVal.mk "seed" "seed"))
    (Signature.mk "7273617c736565647c" "PyCrypto-PKCS#1 PSS" "73656564666f78")
    "fox"
  = Ok true.
Proof. reflexivity. Qed.

Example verify_bad_data_doc_env :
  verify_signature doc_env
    (KeyDict.mk "rsa" "7273617c736565647c" (KeyVal.mk "seed" "seed"))
    (Signature.mk "7273617c736565647c" "PyCrypto-PKCS#1 PSS" "73656564666f78")
    "bad_data"
  = Ok false.
Proof. reflexivity. Qed.

(** ** Which Ed25519 engine is selected *)

(** C3.  Under every configuration that passes the availability check,
    [create_signature] on an Ed25519 key record calls the provider with
    [use_pynacl] true exactly when [ED25519_CRYPTO_LIBRARY] is ['pynacl']
    and PyNaCl is available, while [verify_signature] tests
    [RSA_CRYPTO_LIBRARY] instead and so always calls it with [use_pynacl]
    false: when PyNaCl is configured the two select different engines. *)
Theorem ed25519_engine_selection
    (E : Env) (rng : entropy) (key : KeyDict.t) (signature : Signature.t)
    (data public private sig : string) :
  _check_crypto_libraries E = Ok tt ->
  formats.ANYKEY_SCHEMA (tuf_formats E) key = true ->
  formats.SIGNATURE_SCHEMA (tuf_formats E) signature = true ->
  KeyDict.keytype key = "ed25519" ->
  binascii.unhexlify (KeyVal.public (KeyDict.keyval key)) = Ok public ->
  binascii.unhexlify (KeyVal.private (KeyDict.keyval key)) = Ok private ->
  binascii.unhexlify (Signature.sig signature) = Ok sig ->
  create_signature E rng key data
  = (' (sig, method) <-
       ed25519_keys.create_signature (tuf_ed25519_keys E) public private data
         ((_ED25519_CRYPTO_LIBRARY E =? "pynacl")
          && py_in "pynacl" (_available_crypto_libraries E)) ;;
     Ok (Signature.mk (KeyDict.keyid key) method (binascii.hexlify sig)))
  /\ verify_signature E key signature data
     = ed25519_keys.verify_signature (tuf_ed25519_keys E)
         public (Signature.method signature) sig data false.
Proof.
  intros Hcheck Hkey Hsig Hkt Hpub Hpriv Hraw. split.
  - apply create_signature_ed25519; assumption.
  - rewrite (verify_signature_ed25519 E key signature data sig public)
      by assumption.
    unfold verifying_use_pynacl.
    destruct (check_crypto_libraries_inv E tt Hcheck) as (-> & _).
    reflexivity.
Qed.

Lemma ed25519_engine_selection_witness :
  create_signature pynacl_env "salt"
    (KeyDict.mk "ed25519" "656432353531397c36627c" (KeyVal.mk "6b" "6b")) "fox"
  = (' (sig, method) <-
       ed25519_keys.create_signature doc_ed25519_keys "k" "k" "fox" true ;;
     Ok (Signature.mk "656432353531397c36627c" method (binascii.hexlify sig)))
  /\ verify_signature pynacl_env
       (KeyDict.mk "ed25519" "656432353531397c36627c" (KeyVal.mk "6b" "6b"))
       (Signature.mk "656432353531397c36627c" "ed25519-pynacl" "6b666f78") "fox"
     = ed25519_keys.verify_signature doc_ed25519_keys
         "k" "ed25519-pynacl" "kfox" "fox" false.
Proof.
  apply (ed25519_engine_selection pynacl_env "salt"
           (KeyDict.mk "ed25519" "656432353531397c36627c" (KeyVal.mk "6b" "6b"))
           (Signature.mk "656432353531397c36627c" "ed25519-pynacl" "6b666f78")
           "fox" "k" "k" "kfox");
    reflexivity.
Defined.

Example sign_selects_pynacl :
  create_signature pynacl_env "salt"
    (KeyDict.mk "ed25519" "656432353531397c36627c" (KeyVal.mk "6b" "6b")) "fox"
  = Ok (Signature.mk "656432353531397c36627c" "ed25519-pynacl" "6b666f78").
Proof. reflexivity. Qed.

(** ** Signing with a public-only record *)



(** ** Verification and the availability check *)

(** C5.  [verify_signature] does not call [_check_crypto_libraries]: under
    a configuration that the availability check rejects, an Ed25519 key
    record and a signature record that pass the format checks still reach
    the provider, and the provider's answer is returned. *)
Theorem verify_signature_skips_check
    (E : Env) (key : KeyDict.t) (signature : Signature.t)
    (data public sig : string) (e : exn) :
  _check_crypto_libraries E = Raise e ->
  formats.ANYKEY_SCHEMA (tuf_formats E) key = true ->
  formats.SIGNATURE_SCHEMA (tuf_formats E) signature = true ->
  KeyDict.keytype key = "ed25519" ->
  binascii.unhexlify (KeyVal.public (KeyDict.keyval key)) = Ok public ->
  binascii.unhexlify (Signature.sig signature) = Ok sig ->
  verify_signature E key signature data
  = ed25519_keys.verify_signature (tuf_ed25519_keys E)
      public (Signature.method signature) sig data
      ((_RSA_CRYPTO_LIBRARY E =? "pynacl")
       && py_in "pynacl" (_available_crypto_libraries E)).
Proof.
  intros _ Hkey Hsig Hkt Hpub Hraw.
  apply verify_signature_ed25519; assumption.
Qed.

Lemma verify_signature_skips_check_witness :
  (exists message,
     _check_crypto_libraries misconfigured_env = Raise (CryptoError message))
  /\ verify_signature misconfigured_env
       (KeyDict.mk "ed25519" "656432353531397c36627c" (KeyVal.mk "6b" ""))
       (Signature.mk "656432353531397c36627c" "ed25519-python" "6b666f78") "fox"
     = Ok true.
Proof.
  split.
  - eexists. reflexivity.
  - rewrite (verify_signature_skips_check misconfigured_env
               (KeyDict.mk "ed25519" "656432353531397c36627c" (KeyVal.mk "6b" ""))
               (Signature.mk "656432353531397c36627c" "ed25519-python" "6b666f78")
               "fox" "k" "kfox" _ eq_refl eq_refl eq_refl eq_refl eq_refl eq_refl).
    reflexivity.
Defined.


(** ** RSA key sizes *)

(** C8, as stated, fails at [bits = 2049]: it is not a multiple of 256, it
    passes [RSAKEYBITS_SCHEMA] (a minimum of 2048), and the call fails in
    the provider's key generation with the [ValueError] the docstring of
    [generate_rsa_key] announces, not with a [FormatError]. *)
Lemma generate_rsa_key_2049_not_FormatError :
  (2049 mod 256 <> 0)%Z
  /\ formats.RSAKEYBITS_SCHEMA (tuf_formats doc_env) 2049 = true
  /\ generate_rsa_key doc_env "seed" 2049
     = Raise (ValueError "RSA modulus length must be a multiple of 256 and >= 1024")
  /\ generate_rsa_key doc_env "seed" 2049 <> Raise FormatError.
Proof.
  split; [| split; [| split]].
  - vm_compute. discriminate.
  - reflexivity.
  - reflexivity.
  - vm_compute. discriminate.
Qed.

(** C8, amended.  [RSAKEYBITS_SCHEMA] being the integer schema with minimum
    2048 that [keys.py] describes: for every [bits] below 2048,
    [generate_rsa_key] fails with [FormatError] whatever the configuration
    and the providers are, that is before the availability check and before
    any key generation; for [bits] of 2048 or more the format check passes,
    and under a configuration that passes the availability check the call
    returns or raises what the provider's key generation does, so that a
    size that is not a multiple of 256 is rejected there, if at all. *)
Theorem generate_rsa_key_bits (E : Env) (rng : entropy) (bits : Z) :
  (forall b, formats.RSAKEYBITS_SCHEMA (tuf_formats E) b = (2048 <=? b)%Z) ->
  ((bits < 2048)%Z -> generate_rsa_key E rng bits = Raise FormatError)
  /\ ((2048 <= bits)%Z ->
      _check_crypto_libraries E = Ok tt ->
      generate_rsa_key E rng bits
      = (' (public, private) <-
           pycrypto_keys.generate_rsa_public_and_private
             (tuf_pycrypto_keys E) rng bits ;;
         keyid <- _get_keyid E "rsa" (KeyVal.mk public "") ;;
         Ok (KeyDict.mk "rsa" keyid (KeyVal.mk public private)))).
Proof.
  intros Hschema. unfold generate_rsa_key. rewrite Hschema. split.
  - intros Hlt. apply Z.leb_gt in Hlt. rewrite Hlt. reflexivity.
  - intros Hge Hcheck. apply Z.leb_le in Hge. rewrite Hge, Hcheck.
    destruct (check_crypto_libraries_inv E tt Hcheck) as (-> & _).
    reflexivity.
Qed.

Lemma generate_rsa_key_bits_witness :
  generate_rsa_key doc_env "seed" 1024 = Raise FormatError
  /\ generate_rsa_key doc_env "seed" 2000 = Raise FormatError
  /\ generate_rsa_key doc_env "seed" 2049
     = (' (public, private) <-
          pycrypto_keys.generate_rsa_public_and_private
            doc_pycrypto_keys "seed" 2049 ;;
        keyid <- _get_keyid doc_env "rsa" (KeyVal.mk public "") ;;
        Ok (KeyDict.mk "rsa" keyid (KeyVal.mk public private))).
Proof.
  pose proof (generate_rsa_key_bits doc_env "seed" 1024 (fun b => eq_refl))
    as [H1024 _].
  pose proof (generate_rsa_key_bits doc_env "seed" 2000 (fun b => eq_refl))
    as [H2000 _].
  pose proof (generate_rsa_key_bits doc_env "seed" 2049 (fun b => eq_refl))
    as [_ H2049].
  split; [| split].
  - apply H1024. lia.
  - apply H2000. lia.
  - apply H2049; [lia | reflexivity].
Defined.

(** ** Unsupported key types *)

(** C9.  For every key record that passes the format check and whose key
    type is neither ['rsa'] nor ['ed25519']: [create_signature], once the
    availability check has passed, raises [TypeError('Invalid key type.')],
    and in no configuration returns a signature record;
    [verify_signature], for a signature record that passes the format check,
    raises a [TypeError], which is [TypeError('Unsupported key type.')]
    whenever the signature's [sig] is a hexadecimal encoding. *)
Theorem unsupported_keytype
    (E : Env) (rng : entropy) (key : KeyDict.t) (signature : Signature.t)
    (data : string) :
  formats.ANYKEY_SCHEMA (tuf_formats E) key = true ->
  KeyDict.keytype key <> "rsa" ->
  KeyDict.keytype key <> "ed25519" ->
  (_check_crypto_libraries E = Ok tt ->
   create_signature E rng key data = Raise (TypeError "Invalid key type."))
  /\ (exists e, create_signature E rng key data = Raise e)
  /\ (formats.SIGNATURE_SCHEMA (tuf_formats E) signature = true ->
      (exists message,
         verify_signature E key signature data = Raise (TypeError message))
      /\ forall sig,
           binascii.unhexlify (Signature.sig signature) = Ok sig ->
           verify_signature E key signature data
           = Raise (TypeError "Unsupported key type.")).
Proof.
  intros Hkey Hrsa Hed.
  apply String.eqb_neq in Hrsa. apply String.eqb_neq in Hed.
  split; [| split].
  - intros Hcheck. unfold create_signature.
    rewrite Hkey, Hcheck, Hrsa, Hed. reflexivity.
  - unfold create_signature. rewrite Hkey, Hrsa, Hed.
    cbn [formats.check_match bind].
    destruct (_check_crypto_libraries E) as [u | e]; cbn [bind]; eauto.
  - intros Hsig. unfold verify_signature. rewrite Hkey, Hsig, Hrsa, Hed.
    cbn [formats.check_match bind].
    split.
    + destruct (binascii.unhexlify (Signature.sig signature)) as [sig | e]
        eqn:Hraw; cbn [bind].
      * eauto.
      * destruct (unhexlify_raises_TypeError _ _ Hraw) as [message ->]. eauto.
    + intros sig ->. reflexivity.
Qed.

Lemma unsupported_keytype_witness :
  create_signature doc_env "salt"
    (KeyDict.mk "bogus" "00" (KeyVal.mk "6b" "6b")) "fox"
  = Raise (TypeError "Invalid key type.")
  /\ verify_signature doc_env
       (KeyDict.mk "bogus" "00" (KeyVal.mk "6b" "6b"))
       (Signature.mk "00" "ed25519-python" "6b666f78") "fox"
     = Raise (TypeError "Unsupported key type.").
Proof.
  pose proof (unsupported_keytype doc_env "salt"
                (KeyDict.mk "bogus" "00" (KeyVal.mk "6b" "6b"))
                (Signature.mk "00" "ed25519-python" "6b666f78") "fox" eq_refl)
    as (Hsign & _ & Hverify).
  - discriminate.
  - discriminate.
  - split.
    + apply Hsign. reflexivity.
    + apply (Hverify eq_refl) with (sig := "kfox"). reflexivity.
Defined.

(** ** Verification and the private key *)

(** C10.  [verify_signature] does not use the private component of the key
    record: two key records that differ at most in [keyval.private], and
    that the format check treats alike, give the same result, be it a
    Boolean or an exception, for every signature record and data. *)
Theorem verify_signature_ignores_private
    (E : Env) (key1 key2 : KeyDict.t) (signature : Signature.t)
    (data : string) :
  KeyDict.keytype key1 = KeyDict.keytype key2 ->
  KeyDict.keyid key1 = KeyDict.keyid key2 ->
  KeyVal.public (KeyDict.keyval key1) = KeyVal.public (KeyDict.keyval key2) ->
  formats.ANYKEY_SCHEMA (tuf_formats E) key1
  = formats.ANYKEY_SCHEMA (tuf_formats E) key2 ->
  verify_signature E key1 signature data
  = verify_signature E key2 signature data.
Proof.
  intros Hkt _ Hpub Hkey. unfold verify_signature.
  rewrite Hkey, Hkt, Hpub. reflexivity.
Qed.

Lemma verify_signature_ignores_private_witness :
  verify_signature doc_env
    (KeyDict.mk "ed25519" "656432353531397c36627c" (KeyVal.mk "6b" ""))
    (Signature.mk "656432353531397c36627c" "ed25519-python" "6b666f78") "fox"
  = verify_signature doc_env
      (KeyDict.mk "ed25519" "656432353531397c36627c" (KeyVal.mk "6b" "6b"))
      (Signature.mk "656432353531397c36627c" "ed25519-python" "6b666f78") "fox".
Proof.
  apply (verify_signature_ignores_private doc_env
           (KeyDict.mk "ed25519" "656432353531397c36627c" (KeyVal.mk "6b" ""))
           (KeyDict.mk "ed25519" "656432353531397c36627c" (KeyVal.mk "6b" "6b")));
    reflexivity.
Defined.

(** ** The availability check comes first *)

(** X1.  Under a configuration that [_check_crypto_libraries] rejects, key
    generation (for a key size that passes the format check) and signing
    (for a key record that passes the format check) fail with the
    exception of the check, before any provider is called. *)
Theorem availability_check_first
    (E : Env) (rng : entropy) (bits : Z) (key : KeyDict.t) (data : string)
    (e : exn) :
  _check_crypto_libraries E = Raise e ->
  (formats.RSAKEYBITS_SCHEMA (tuf_formats E) bits = true ->
   generate_rsa_key E rng bits = Raise e)
  /\ generate_ed25519_key E rng = Raise e
  /\ (formats.ANYKEY_SCHEMA (tuf_formats E) key = true ->
      create_signature E rng key data = Raise e).
Proof.
  intros Hcheck. split; [| split].
  - intros Hbits. unfold generate_rsa_key. rewrite Hbits, Hcheck. reflexivity.
  - unfold generate_ed25519_key. rewrite Hcheck. reflexivity.
  - intros Hkey. unfold create_signature. rewrite Hkey, Hcheck. reflexivity.
Qed.

Lemma availability_check_first_witness :
  exists message,
    generate_rsa_key misconfigured_env "seed" 2048 = Raise (CryptoError message)
    /\ generate_ed25519_key misconfigured_env "seed"
       = Raise (CryptoError message)
    /\ create_signature misconfigured_env "salt"
         (KeyDict.mk "rsa" "7273617c736565647c" (KeyVal.mk "seed" "seed")) "fox"
       = Raise (CryptoError message).
Proof.
  eexists.
  pose proof (availability_check_first misconfigured_env "seed" 2048
                (KeyDict.mk "rsa" "7273617c736565647c" (KeyVal.mk "seed" "seed"))
                "fox" _ eq_refl) as (Hrsa & Hed & Hsign).
  split; [| split].
  - apply Hrsa. reflexivity.
  - exact Hed.
  - apply Hsign. reflexivity.
Defined.

(** ** Further properties of keys.py *)

(** *** Hexadecimal strings *)

Lemma hexlify_length (data : string) :
  String.length (binascii.hexlify data) = 2 * String.length data.
Proof.
  induction data as [| c rest IH]; simpl; [reflexivity |].
  rewrite IH. lia.
Qed.

(** Induction on a string two characters at a time. *)
Lemma string_pair_ind (P : string -> Prop) :
  P EmptyString ->
  (forall c, P (String c EmptyString)) ->
  (forall hi lo rest, P rest -> P (String hi (String lo rest))) ->
  forall s, P s.
Proof.
  intros Hnil Hone Hpair.
  assert (Hboth : forall s, P s /\ forall c, P (String c s)).
  { induction s as [| d s [IHs IHcs]].
    - split; [exact Hnil | exact Hone].
    - split; [apply IHcs |].
      intros c. apply Hpair. exact IHs. }
  intros s. apply Hboth.
Qed.

Lemma unhex_pairs_Ok_inv (hexstr raw : string) :
  binascii.unhex_pairs hexstr = Ok raw ->
  all_hex hexstr = true /\ String.length hexstr = 2 * String.length raw.
Proof.
  revert raw. induction hexstr as [| c | hi lo rest IH] using string_pair_ind;
    intros raw H.
  - injection H as <-. split; reflexivity.
  - discriminate H.
  - cbn [binascii.unhex_pairs] in H. cbn [all_hex].
    destruct (binascii.digit_value hi) as [h |]; [| discriminate H].
    destruct (binascii.digit_value lo) as [l |]; [| discriminate H].
    apply bind_Ok_inv in H as (tail & Htail & H). injection H as <-.
    destruct (IH tail Htail) as [Hhex Hlen].
    split; [exact Hhex |]. cbn [String.length]. rewrite Hlen. lia.
Qed.

Lemma unhex_pairs_not_hex (hexstr : string) :
  Nat.odd (String.length hexstr) = false ->
  all_hex hexstr = false ->
  binascii.unhex_pairs hexstr
  = Raise (TypeError "Non-hexadecimal digit found").
Proof.
  induction hexstr as [| c | hi lo rest IH] using string_pair_ind;
    intros Hodd Hhex.
  - discriminate Hhex.
  - discriminate Hodd.
  - cbn [binascii.unhex_pairs]. cbn [all_hex] in Hhex.
    destruct (binascii.digit_value hi) as [h |]; [| reflexivity].
    destruct (binascii.digit_value lo) as [l |]; [| reflexivity].
    rewrite IH; [reflexivity | | exact Hhex].
    cbn [String.length] in Hodd. rewrite Nat.odd_succ, Nat.even_succ in Hodd.
    exact Hodd.
Qed.

Lemma unhex_pairs_all_hex (hexstr : string) :
  Nat.odd (String.length hexstr) = false ->
  all_hex hexstr = true ->
  exists raw, binascii.unhex_pairs hexstr = Ok raw.
Proof.
  induction hexstr as [| c | hi lo rest IH] using string_pair_ind;
    intros Hodd Hhex.
  - exists EmptyString. reflexivity.
  - discriminate Hodd.
  - cbn [binascii.unhex_pairs]. cbn [all_hex] in Hhex.
    destruct (binascii.digit_value hi) as [h |]; [| discriminate Hhex].
    destruct (binascii.digit_value lo) as [l |]; [| discriminate Hhex].
    cbn [String.length] in Hodd. rewrite Nat.odd_succ, Nat.even_succ in Hodd.
    destruct (IH Hodd Hhex) as [tail Htail].
    rewrite Htail. cbn [bind]. eauto.
Qed.

(** What [binascii.unhexlify] does with every string. *)
Lemma unhexlify_cases (hexstr : string) :
  (hex_string hexstr = true ->
   exists raw, binascii.unhexlify hexstr = Ok raw
               /\ String.length hexstr = 2 * String.length raw)
  /\ (Nat.odd (String.length hexstr) = true ->
      binascii.unhexlify hexstr = Raise (TypeError "Odd-length string"))
  /\ (Nat.odd (String.length hexstr) = false ->
      all_hex hexstr = false ->
      binascii.unhexlify hexstr
      = Raise (TypeError "Non-hexadecimal digit found")).
Proof.
  unfold hex_string, binascii.unhexlify.
  destruct (Nat.odd (String.length hexstr)) eqn:Hodd; cbn [negb andb].
  - split; [discriminate |]. split; [reflexivity | discriminate].
  - split; [| split; [discriminate |]].
    + intros Hhex. destruct (unhex_pairs_all_hex hexstr Hodd Hhex) as [raw Hraw].
      exists raw. split; [exact Hraw |].
      apply (unhex_pairs_Ok_inv hexstr raw Hraw).
    + intros _ Hhex. apply unhex_pairs_not_hex; assumption.
Qed.

Lemma unhexlify_not_hex_string (hexstr : string) :
  hex_string hexstr = false ->
  exists message, binascii.unhexlify hexstr = Raise (TypeError message).
Proof.
  intros H. destruct (unhexlify_cases hexstr) as (_ & Hodd & Hbad).
  unfold hex_string in H.
  destruct (Nat.odd (String.length hexstr)) eqn:Ho.
  - eexists. apply Hodd. reflexivity.
  - cbn [negb andb] in H. eexists. apply Hbad; [reflexivity | exact H].
Qed.

(** *** Which libraries are available *)

Lemma py_in_available (E : Env) :
  py_in "ed25519" (_available_crypto_libraries E) = true
  /\ py_in "pycrypto" (_available_crypto_libraries E) = Crypto_imported E
  /\ py_in "pynacl" (_available_crypto_libraries E) = nacl_imported E.
Proof.
  unfold _available_crypto_libraries.
  destruct (Crypto_imported E), (nacl_imported E); repeat split.
Qed.

Lemma check_crypto_libraries_passes_or_CryptoError (E : Env) :
  _check_crypto_libraries E = Ok tt
  \/ exists message, _check_crypto_libraries E = Raise (CryptoError message).
Proof.
  unfold _check_crypto_libraries.
  repeat match goal with
         | |- context [if negb ?b then _ else _] => destruct b; cbn [negb]
         end; eauto.
Qed.

(** X2.  [_check_crypto_libraries] passes exactly when
    [RSA_CRYPTO_LIBRARY] is ['pycrypto'] and PyCrypto was imported, and
    [ED25519_CRYPTO_LIBRARY] is ['ed25519'] (always available) or is
    ['pynacl'] with PyNaCl imported; in every other configuration it raises
    a [CryptoError], and nothing else. *)
Theorem check_crypto_libraries_passes_iff (E : Env) :
  (_check_crypto_libraries E = Ok tt <->
   _RSA_CRYPTO_LIBRARY E = "pycrypto"
   /\ Crypto_imported E = true
   /\ (_ED25519_CRYPTO_LIBRARY E = "ed25519"
       \/ (_ED25519_CRYPTO_LIBRARY E = "pynacl" /\ nacl_imported E = true)))
  /\ (_check_crypto_libraries E = Ok tt
      \/ exists message, _check_crypto_libraries E = Raise (CryptoError message)).
Proof.
  split.
  - split.
    + intros H.
      destruct (check_crypto_libraries_inv E tt H)
        as (Hrsa & Hsupported & Hrsa_avail & Hed_avail).
      destruct (py_in_available E) as (_ & Hcrypto & Hnacl).
      rewrite Hrsa, Hcrypto in Hrsa_avail.
      split; [exact Hrsa |]. split; [exact Hrsa_avail |].
      unfold py_in, _SUPPORTED_ED25519_CRYPTO_LIBRARIES in Hsupported.
      cbn [existsb] in Hsupported. rewrite orb_false_r in Hsupported.
      apply orb_true_iff in Hsupported as [Hed | Hed];
        apply String.eqb_eq in Hed.
      * left. exact Hed.
      * right. split; [exact Hed |].
        rewrite Hed, Hnacl in Hed_avail. exact Hed_avail.
    + intros (Hrsa & Hcrypto & Hed).
      unfold _check_crypto_libraries, _available_crypto_libraries.
      rewrite Hrsa, Hcrypto.
      destruct Hed as [-> | [-> ->]]; [destruct (nacl_imported E) |];
        reflexivity.
  - unfold _check_crypto_libraries.
    repeat match goal with
           | |- context [if negb ?b then _ else _] => destruct b; cbn [negb]
           end; eauto.
Qed.

Example check_without_pycrypto :
  _check_crypto_libraries (env_of (conf.mk "pycrypto" "ed25519") false true)
  = Raise (CryptoError
      ("The 'pycrypto' crypto library specified in "
       ++ quoted "tuf.conf.RSA_CRYPTO_LIBRARY" ++ " could not be imported.")).
Proof. reflexivity. Qed.

(** X3.  Under a configuration that passes the availability check,
    [generate_ed25519_key] has the provider generate the pair with PyNaCl
    exactly when PyNaCl was imported, whatever [ED25519_CRYPTO_LIBRARY]
    names, while [create_signature] signs with PyNaCl only when PyNaCl was
    imported and [ED25519_CRYPTO_LIBRARY] names it. *)
Theorem generate_ed25519_key_engine
    (E : Env) (rng rng' : entropy) (key : KeyDict.t)
    (data public private : string) :
  _check_crypto_libraries E = Ok tt ->
  formats.ANYKEY_SCHEMA (tuf_formats E) key = true ->
  KeyDict.keytype key = "ed25519" ->
  binascii.unhexlify (KeyVal.public (KeyDict.keyval key)) = Ok public ->
  binascii.unhexlify (KeyVal.private (KeyDict.keyval key)) = Ok private ->
  generate_ed25519_key E rng
  = (' (public, private) <-
       ed25519_keys.generate_public_and_private
         (tuf_ed25519_keys E) rng (nacl_imported E) ;;
     keyid <- _get_keyid E "ed25519" (KeyVal.mk (binascii.hexlify public) "") ;;
     Ok (KeyDict.mk "ed25519" keyid
           (KeyVal.mk (binascii.hexlify public) (binascii.hexlify private))))
  /\ create_signature E rng' key data
     = (' (sig, method) <-
          ed25519_keys.create_signature (tuf_ed25519_keys E)
            public private data
            ((_ED25519_CRYPTO_LIBRARY E =? "pynacl") && nacl_imported E) ;;
        Ok (Signature.mk (KeyDict.keyid key) method (binascii.hexlify sig))).
Proof.
  intros Hcheck Hkey Hkt Hpub Hpriv.
  destruct (py_in_available E) as (_ & _ & Hnacl).
  split.
  - unfold generate_ed25519_key. rewrite Hcheck, Hnacl. cbn [bind].
    rewrite (if_same_call (nacl_imported E)
               (ed25519_keys.generate_public_and_private
                  (tuf_ed25519_keys E) rng)).
    reflexivity.
  - rewrite (create_signature_ed25519 E rng' key data public private)
      by assumption.
    unfold signing_use_pynacl. rewrite Hnacl. reflexivity.
Qed.

Lemma generate_ed25519_key_engine_witness :
  generate_ed25519_key
    (env_of (conf.mk "pycrypto" "ed25519") true true) "k"
  = (' (public, private) <-
       ed25519_keys.generate_public_and_private doc_ed25519_keys "k" true ;;
     keyid <- _get_keyid (env_of (conf.mk "pycrypto" "ed25519") true true)
                "ed25519" (KeyVal.mk (binascii.hexlify public) "") ;;
     Ok (KeyDict.mk "ed25519" keyid
           (KeyVal.mk (binascii.hexlify public) (binascii.hexlify private))))
  /\ create_signature
       (env_of (conf.mk "pycrypto" "ed25519") true true) "salt"
       (KeyDict.mk "ed25519" "656432353531397c36627c" (KeyVal.mk "6b" "6b"))
       "fox"
     = (' (sig, method) <-
          ed25519_keys.create_signature doc_ed25519_keys "k" "k" "fox" false ;;
        Ok (Signature.mk "656432353531397c36627c" method
              (binascii.hexlify sig))).
Proof.
  apply (generate_ed25519_key_engine
           (env_of (conf.mk "pycrypto" "ed25519") true true) "k" "salt"
           (KeyDict.mk "ed25519" "656432353531397c36627c" (KeyVal.mk "6b" "6b"))
           "fox" "k" "k");
    reflexivity.
Defined.

(** X4.  A record returned by [generate_ed25519_key] has key type
    ['ed25519'], and its public and private components are hexadecimal
    strings twice as long as the byte strings the provider generated, which
    [binascii.unhexlify] gives back unchanged. *)
Theorem generate_ed25519_key_hex (E : Env) (rng : entropy) (key : KeyDict.t) :
  generate_ed25519_key E rng = Ok key ->
  exists public private,
    ed25519_keys.generate_public_and_private
      (tuf_ed25519_keys E) rng (nacl_imported E) = Ok (public, private)
    /\ KeyDict.keytype key = "ed25519"
    /\ binascii.unhexlify (KeyVal.public (KeyDict.keyval key)) = Ok public
    /\ binascii.unhexlify (KeyVal.private (KeyDict.keyval key)) = Ok private
    /\ String.length (KeyVal.public (KeyDict.keyval key))
       = 2 * String.length public
    /\ String.length (KeyVal.private (KeyDict.keyval key))
       = 2 * String.length private.
Proof.
  intros H.
  apply generate_ed25519_key_Ok_inv in H
    as (public & private & keyid & _ & Hgen & _ & ->).
  destruct (py_in_available E) as (_ & _ & Hnacl). rewrite Hnacl in Hgen.
  exists public, private.
  cbn [KeyDict.keytype KeyDict.keyval KeyVal.public KeyVal.private].
  split; [exact Hgen |]. split; [reflexivity |].
  split; [apply unhexlify_hexlify |]. split; [apply unhexlify_hexlify |].
  split; apply hexlify_length.
Qed.

Lemma generate_ed25519_key_hex_witness :
  exists public private,
    ed25519_keys.generate_public_and_private
      doc_ed25519_keys "0123456789abcdef0123456789abcdef" false
    = Ok (public, private)
    /\ KeyDict.keytype
         (KeyDict.mk "ed25519"
            "656432353531397c333033313332333333343335333633373338333936313632363336343635363633303331333233333334333533363337333833393631363236333634363536367c"
            (KeyVal.mk
               "3031323334353637383961626364656630313233343536373839616263646566"
               "3031323334353637383961626364656630313233343536373839616263646566"))
       = "ed25519"
    /\ binascii.unhexlify
         "3031323334353637383961626364656630313233343536373839616263646566"
       = Ok public
    /\ binascii.unhexlify
         "3031323334353637383961626364656630313233343536373839616263646566"
       = Ok private
    /\ String.length
         "3031323334353637383961626364656630313233343536373839616263646566"
       = 2 * String.length public
    /\ String.length
         "3031323334353637383961626364656630313233343536373839616263646566"
       = 2 * String.length private.
Proof.
  apply (generate_ed25519_key_hex doc_env "0123456789abcdef0123456789abcdef").
  reflexivity.
Defined.

(** *** What a signature record holds *)

(** X5.  When [create_signature] returns a signature record, the key
    record passed the format check, the configuration passed the
    availability check and the key type is ['rsa'] or ['ed25519']; the
    record carries the keyid of the key record as it stands, the method the
    provider returned, and as [sig] the lowercase hexadecimal form of the
    provider's signature bytes: twice their length, and decoded back to
    them by [binascii.unhexlify]. *)
Theorem create_signature_returns
    (E : Env) (rng : entropy) (key : KeyDict.t) (data : string)
    (signature : Signature.t) :
  create_signature E rng key data = Ok signature ->
  formats.ANYKEY_SCHEMA (tuf_formats E) key = true
  /\ _check_crypto_libraries E = Ok tt
  /\ Signature.keyid signature = KeyDict.keyid key
  /\ exists sig,
       Signature.sig signature = binascii.hexlify sig
       /\ binascii.unhexlify (Signature.sig signature) = Ok sig
       /\ String.length (Signature.sig signature) = 2 * String.length sig
       /\ ((KeyDict.keytype key = "rsa"
            /\ pycrypto_keys.create_signature (tuf_pycrypto_keys E) rng
                 (KeyVal.private (KeyDict.keyval key)) data
               = Ok (sig, Signature.method signature))
           \/ (KeyDict.keytype key = "ed25519"
               /\ exists public private,
                    binascii.unhexlify (KeyVal.public (KeyDict.keyval key))
                    = Ok public
                    /\ binascii.unhexlify (KeyVal.private (KeyDict.keyval key))
                       = Ok private
                    /\ ed25519_keys.create_signature (tuf_ed25519_keys E)
                         public private data (signing_use_pynacl E)
                       = Ok (sig, Signature.method signature))).
Proof.
  intros H. unfold create_signature in H.
  apply bind_Ok_inv in H as (u1 & Hkey & H).
  apply check_match_Ok_inv in Hkey.
  apply bind_Ok_inv in H as (u2 & Hcheck & H). destruct u2.
  apply bind_Ok_inv in H as ([sig method] & Hcall & H).
  cbn beta iota zeta in H. injection H as <-.
  cbn [Signature.keyid Signature.sig Signature.method].
  split; [exact Hkey |]. split; [exact Hcheck |]. split; [reflexivity |].
  exists sig. split; [reflexivity |].
  split; [apply unhexlify_hexlify |]. split; [apply hexlify_length |].
  destruct (String.eqb_spec (KeyDict.keytype key) "rsa") as [Hrsa | Hrsa].
  - left. split; [exact Hrsa |].
    destruct (check_crypto_libraries_inv E tt Hcheck) as (Hlib & _).
    rewrite Hlib in Hcall. exact Hcall.
  - destruct (String.eqb_spec (KeyDict.keytype key) "ed25519") as [Hed | Hed];
      [| discriminate Hcall].
    right. split; [exact Hed |].
    apply bind_Ok_inv in Hcall as (public & Hpub & Hcall).
    apply bind_Ok_inv in Hcall as (private & Hpriv & Hcall).
    exists public, private. split; [exact Hpub |]. split; [exact Hpriv |].
    fold (signing_use_pynacl E) in Hcall.
    rewrite (if_same_call (signing_use_pynacl E)
               (ed25519_keys.create_signature (tuf_ed25519_keys E)
                  public private data)) in Hcall.
    exact Hcall.
Qed.

Lemma create_signature_returns_witness :
  formats.ANYKEY_SCHEMA (tuf_formats doc_env)
    (KeyDict.mk "rsa" "7273617c736565647c" (KeyVal.mk "seed" "seed")) = true
  /\ _check_crypto_libraries doc_env = Ok tt
  /\ "7273617c736565647c" = "7273617c736565647c"
  /\ exists sig,
       "73656564666f78" = binascii.hexlify sig
       /\ binascii.unhexlify "73656564666f78" = Ok sig
       /\ String.length "73656564666f78" = 2 * String.length sig
       /\ (("rsa" = "rsa"
            /\ pycrypto_keys.create_signature doc_pycrypto_keys "salt"
                 "seed" "fox"
               = Ok (sig, "PyCrypto-PKCS#1 PSS"))
           \/ ("rsa" = "ed25519"
               /\ exists public private,
                    binascii.unhexlify "seed" = Ok public
                    /\ binascii.unhexlify "seed" = Ok private
                    /\ ed25519_keys.create_signature doc_ed25519_keys
                         public private "fox" (signing_use_pynacl doc_env)
                       = Ok (sig, "PyCrypto-PKCS#1 PSS"))).
Proof.
  apply (create_signature_returns doc_env "salt"
           (KeyDict.mk "rsa" "7273617c736565647c" (KeyVal.mk "seed" "seed"))
           "fox"
           (Signature.mk "7273617c736565647c" "PyCrypto-PKCS#1 PSS"
              "73656564666f78")).
  reflexivity.
Defined.

(** *** Why a call fails *)

(** X6.  Every failure of [generate_rsa_key] is one of four: a
    [FormatError] for [bits]; the [CryptoError] of the availability check;
    the exception of the provider's key generation; or, after the pair was
    generated, a [FormatError] because the key type or the public-only key
    value did not pass the format checks of the keyid derivation.  The
    [ValueError('Invalid crypto library ...')] of lines 161-163 is never
    raised: a configuration that reaches that test names ['pycrypto']. *)
Theorem generate_rsa_key_failures
    (E : Env) (rng : entropy) (bits : Z) (e : exn) :
  generate_rsa_key E rng bits = Raise e ->
  (formats.RSAKEYBITS_SCHEMA (tuf_formats E) bits = false /\ e = FormatError)
  \/ (formats.RSAKEYBITS_SCHEMA (tuf_formats E) bits = true
      /\ (exists message, e = CryptoError message)
      /\ _check_crypto_libraries E = Raise e)
  \/ (_check_crypto_libraries E = Ok tt
      /\ pycrypto_keys.generate_rsa_public_and_private
           (tuf_pycrypto_keys E) rng bits = Raise e)
  \/ (exists public private,
        pycrypto_keys.generate_rsa_public_and_private
          (tuf_pycrypto_keys E) rng bits = Ok (public, private)
        /\ e = FormatError
        /\ (formats.KEYTYPE_SCHEMA (tuf_formats E) "rsa" = false
            \/ formats.KEYVAL_SCHEMA (tuf_formats E) (KeyVal.mk public "")
               = false)).
Proof.
  unfold generate_rsa_key. intros H.
  destruct (formats.RSAKEYBITS_SCHEMA (tuf_formats E) bits) eqn:Hbits;
    cbn [formats.check_match bind] in H.
  2: { left. injection H as <-. split; reflexivity. }
  right.
  destruct (_check_crypto_libraries E) as [[] | e0] eqn:Hcheck;
    cbn [bind] in H.
  2: { left. injection H as <-. split; [reflexivity |]. split; [| reflexivity].
       destruct (check_crypto_libraries_passes_or_CryptoError E)
         as [Hok | [message Hm]]; [congruence |].
       exists message. congruence. }
  right.
  destruct (check_crypto_libraries_inv E tt Hcheck) as (Hlib & _).
  rewrite Hlib in H. cbn [String.eqb Ascii.eqb Bool.eqb] in H.
  destruct (pycrypto_keys.generate_rsa_public_and_private
              (tuf_pycrypto_keys E) rng bits) as [[public private] | e0]
    eqn:Hgen; cbn [bind] in H.
  2: { left. injection H as <-. split; reflexivity. }
  right. exists public, private. split; [reflexivity |].
  cbn beta iota zeta in H.
  unfold _get_keyid, create_in_metadata_format in H.
  cbn [KeyVal.public] in H.
  destruct (formats.KEYTYPE_SCHEMA (tuf_formats E) "rsa");
    cbn [formats.check_match bind] in H.
  2: { injection H as <-. split; [reflexivity | left; reflexivity]. }
  destruct (formats.KEYVAL_SCHEMA (tuf_formats E) (KeyVal.mk public ""));
    cbn [formats.check_match bind] in H.
  - discriminate H.
  - injection H as <-. split; [reflexivity | right; reflexivity].
Qed.

Lemma generate_rsa_key_failures_witness :
  (formats.RSAKEYBITS_SCHEMA (tuf_formats doc_env) 4000 = false
   /\ ValueError "RSA modulus length must be a multiple of 256 and >= 1024"
      = FormatError)
  \/ (formats.RSAKEYBITS_SCHEMA (tuf_formats doc_env) 4000 = true
      /\ (exists message,
            ValueError "RSA modulus length must be a multiple of 256 and >= 1024"
            = CryptoError message)
      /\ _check_crypto_libraries doc_env
         = Raise (ValueError
                    "RSA modulus length must be a multiple of 256 and >= 1024"))
  \/ (_check_crypto_libraries doc_env = Ok tt
      /\ pycrypto_keys.generate_rsa_public_and_private
           (tuf_pycrypto_keys doc_env) "seed" 4000
         = Raise (ValueError
                    "RSA modulus length must be a multiple of 256 and >= 1024"))
  \/ (exists public private,
        pycrypto_keys.generate_rsa_public_and_private
          (tuf_pycrypto_keys doc_env) "seed" 4000 = Ok (public, private)
        /\ ValueError "RSA modulus length must be a multiple of 256 and >= 1024"
           = FormatError
        /\ (formats.KEYTYPE_SCHEMA (tuf_formats doc_env) "rsa" = false
            \/ formats.KEYVAL_SCHEMA (tuf_formats doc_env)
                 (KeyVal.mk public "") = false)).
Proof.
  apply (generate_rsa_key_failures doc_env "seed" 4000).
  reflexivity.
Defined.

(** X7.  Every failure of [create_signature] is one of five: a
    [FormatError] for the key record; the [CryptoError] of the availability
    check; [TypeError('Invalid key type.')] for a key type other than
    ['rsa'] and ['ed25519']; for an Ed25519 record, the [TypeError] of
    decoding its public or private component from hexadecimal; or the
    exception of the provider's signing call.  The [tuf.Error] of lines
    562-565 is never raised: a configuration that reaches that test names
    ['pycrypto']. *)
Theorem create_signature_failures
    (E : Env) (rng : entropy) (key : KeyDict.t) (data : string) (e : exn) :
  create_signature E rng key data = Raise e ->
  (formats.ANYKEY_SCHEMA (tuf_formats E) key = false /\ e = FormatError)
  \/ (exists message,
        e = CryptoError message /\ _check_crypto_libraries E = Raise e)
  \/ (_check_crypto_libraries E = Ok tt
      /\ ((KeyDict.keytype key <> "rsa" /\ KeyDict.keytype key <> "ed25519"
           /\ e = TypeError "Invalid key type.")
          \/ (KeyDict.keytype key = "rsa"
              /\ pycrypto_keys.create_signature (tuf_pycrypto_keys E) rng
                   (KeyVal.private (KeyDict.keyval key)) data = Raise e)
          \/ (KeyDict.keytype key = "ed25519"
              /\ (exists message, e = TypeError message)
              /\ (hex_string (KeyVal.public (KeyDict.keyval key)) = false
                  \/ hex_string (KeyVal.private (KeyDict.keyval key)) = false))
          \/ (KeyDict.keytype key = "ed25519"
              /\ exists public private,
                   binascii.unhexlify (KeyVal.public (KeyDict.keyval key))
                   = Ok public
                   /\ binascii.unhexlify (KeyVal.private (KeyDict.keyval key))
                      = Ok private
                   /\ ed25519_keys.create_signature (tuf_ed25519_keys E)
                        public private data (signing_use_pynacl E)
                      = Raise e))).
Proof.
  unfold create_signature. intros H.
  destruct (formats.ANYKEY_SCHEMA (tuf_formats E) key) eqn:Hkey;
    cbn [formats.check_match bind] in H.
  2: { left. injection H as <-. split; reflexivity. }
  right.
  destruct (_check_crypto_libraries E) as [[] | e0] eqn:Hcheck;
    cbn [bind] in H.
  2: { left. injection H as <-.
       destruct (check_crypto_libraries_passes_or_CryptoError E)
         as [Hok | [message Hm]]; [congruence |].
       exists message. split; congruence. }
  right. split; [reflexivity |].
  destruct (check_crypto_libraries_inv E tt Hcheck) as (Hlib & _).
  destruct (String.eqb_spec (KeyDict.keytype key) "rsa") as [Hrsa | Hrsa].
  - right. left. split; [exact Hrsa |].
    rewrite Hlib in H. cbn [String.eqb Ascii.eqb Bool.eqb] in H.
    destruct (pycrypto_keys.create_signature (tuf_pycrypto_keys E) rng
                (KeyVal.private (KeyDict.keyval key)) data)
      as [[sig method] | e0]; cbn [bind] in H.
    + discriminate H.
    + injection H as <-. reflexivity.
  - destruct (String.eqb_spec (KeyDict.keytype key) "ed25519") as [Hed | Hed].
    + right. right.
      fold (signing_use_pynacl E) in H.
      destruct (hex_string (KeyVal.public (KeyDict.keyval key))) eqn:Hpub.
      * destruct (unhexlify_cases (KeyVal.public (KeyDict.keyval key)))
          as (Hdec & _). destruct (Hdec Hpub) as (public & Hpublic & _).
        rewrite Hpublic in H. cbn [bind] in H.
        destruct (hex_string (KeyVal.private (KeyDict.keyval key))) eqn:Hpriv.
        -- destruct (unhexlify_cases (KeyVal.private (KeyDict.keyval key)))
             as (Hdec' & _). destruct (Hdec' Hpriv) as (private & Hprivate & _).
           rewrite Hprivate in H. cbn [bind] in H.
           rewrite (if_same_call (signing_use_pynacl E)
                      (ed25519_keys.create_signature (tuf_ed25519_keys E)
                         public private data)) in H.
           right. split; [exact Hed |]. exists public, private.
           split; [exact Hpublic |]. split; [exact Hprivate |].
           destruct (ed25519_keys.create_signature (tuf_ed25519_keys E)
                       public private data (signing_use_pynacl E))
             as [[sig method] | e0]; cbn [bind] in H.
           ++ discriminate H.
           ++ injection H as <-. reflexivity.
        -- left. split; [exact Hed |].
           destruct (unhexlify_not_hex_string _ Hpriv) as [message Hm].
           rewrite Hm in H. cbn [bind] in H. injection H as <-.
           split; [eauto | right; reflexivity].
      * left. split; [exact Hed |].
        destruct (unhexlify_not_hex_string _ Hpub) as [message Hm].
        rewrite Hm in H. cbn [bind] in H. injection H as <-.
        split; [eauto | left; reflexivity].
    + left. cbn [bind] in H. injection H as <-. repeat split; assumption.
Qed.

Lemma create_signature_failures_witness :
  (formats.ANYKEY_SCHEMA (tuf_formats doc_env)
     (KeyDict.mk "ed25519" "00" (KeyVal.mk "6b" "6z")) = false
   /\ TypeError "Non-hexadecimal digit found" = FormatError)
  \/ (exists message,
        TypeError "Non-hexadecimal digit found" = CryptoError message
        /\ _check_crypto_libraries doc_env
           = Raise (TypeError "Non-hexadecimal digit found"))
  \/ (_check_crypto_libraries doc_env = Ok tt
      /\ (("ed25519" <> "rsa" /\ "ed25519" <> "ed25519"
           /\ TypeError "Non-hexadecimal digit found"
              = TypeError "Invalid key type.")
          \/ ("ed25519" = "rsa"
              /\ pycrypto_keys.create_signature (tuf_pycrypto_keys doc_env)
                   "salt" "6z" "fox"
                 = Raise (TypeError "Non-hexadecimal digit found"))
          \/ ("ed25519" = "ed25519"
              /\ (exists message,
                    TypeError "Non-hexadecimal digit found" = TypeError message)
              /\ (hex_string "6b" = false \/ hex_string "6z" = false))
          \/ ("ed25519" = "ed25519"
              /\ exists public private,
                   binascii.unhexlify "6b" = Ok public
                   /\ binascii.unhexlify "6z" = Ok private
                   /\ ed25519_keys.create_signature (tuf_ed25519_keys doc_env)
                        public private "fox" (signing_use_pynacl doc_env)
                      = Raise (TypeError "Non-hexadecimal digit found")))).
Proof.
  apply (create_signature_failures doc_env "salt"
           (KeyDict.mk "ed25519" "00" (KeyVal.mk "6b" "6z")) "fox").
  reflexivity.
Defined.

(** X8.  Under a configuration whose [RSA_CRYPTO_LIBRARY] is not
    ['pycrypto'], signing with a key record that passes the format check
    fails with the [CryptoError] of the availability check, while verifying
    an RSA key record's signature (format checks passed, [sig] decoded)
    fails with a [tuf.Error] built at lines 677-680: verification has a
    test of its own for the RSA library, and no other. *)
Theorem rsa_library_errors
    (E : Env) (rng : entropy) (key : KeyDict.t) (signature : Signature.t)
    (data sig : string) :
  _RSA_CRYPTO_LIBRARY E <> "pycrypto" ->
  formats.ANYKEY_SCHEMA (tuf_formats E) key = true ->
  formats.SIGNATURE_SCHEMA (tuf_formats E) signature = true ->
  KeyDict.keytype key = "rsa" ->
  binascii.unhexlify (Signature.sig signature) = Ok sig ->
  (exists message,
     create_signature E rng key data = Raise (CryptoError message))
  /\ verify_signature E key signature data
     = Raise (Error
         ("Unsupported " ++ quoted "tuf.conf.RSA_CRYPTO_LIBRARY" ++ ": "
          ++ repr (_RSA_CRYPTO_LIBRARY E) ++ ".")).
Proof.
  intros Hlib Hkey Hsig Hkt Hraw. split.
  - unfold create_signature. rewrite Hkey. cbn [formats.check_match bind].
    destruct (check_crypto_libraries_passes_or_CryptoError E)
      as [Hok | [message Hm]].
    + destruct (check_crypto_libraries_inv E tt Hok) as (Heq & _).
      contradiction.
    + rewrite Hm. exists message. reflexivity.
  - unfold verify_signature. rewrite Hkey, Hsig, Hraw, Hkt.
    apply String.eqb_neq in Hlib. rewrite Hlib. reflexivity.
Qed.

Lemma rsa_library_errors_witness :
  (exists message,
     create_signature (env_of (conf.mk "m2crypto" "ed25519") true false) "salt"
       (KeyDict.mk "rsa" "7273617c736565647c" (KeyVal.mk "seed" "seed")) "fox"
     = Raise (CryptoError message))
  /\ verify_signature (env_of (conf.mk "m2crypto" "ed25519") true false)
       (KeyDict.mk "rsa" "7273617c736565647c" (KeyVal.mk "seed" "seed"))
       (Signature.mk "7273617c736565647c" "PyCrypto-PKCS#1 PSS" "73656564666f78")
       "fox"
     = Raise (Error
         ("Unsupported " ++ quoted "tuf.conf.RSA_CRYPTO_LIBRARY" ++ ": "
          ++ "'m2crypto'" ++ ".")).
Proof.
  apply (rsa_library_errors (env_of (conf.mk "m2crypto" "ed25519") true false)
           "salt"
           (KeyDict.mk "rsa" "7273617c736565647c" (KeyVal.mk "seed" "seed"))
           (Signature.mk "7273617c736565647c" "PyCrypto-PKCS#1 PSS"
              "73656564666f78")
           "fox" "seedfox");
    try reflexivity.
  discriminate.
Defined.

(** *** Loading keys from metadata *)

(** X9.  [create_from_metadata_format] has two outcomes only.  When
    [KEY_SCHEMA] accepts the metadata and, inside the keyid derivation,
    [KEYTYPE_SCHEMA] and [KEYVAL_SCHEMA] accept its two fields, it returns
    a record with the same key type and the same key value, private
    component included, and the keyid of the public-only form; otherwise it
    raises [FormatError]. *)
Theorem create_from_metadata_format_cases (E : Env) (meta : KeyMeta.t) :
  create_from_metadata_format E meta
  = if formats.KEY_SCHEMA (tuf_formats E) meta
       && formats.KEYTYPE_SCHEMA (tuf_formats E) (KeyMeta.keytype meta)
       && formats.KEYVAL_SCHEMA (tuf_formats E) (KeyMeta.keyval meta)
    then Ok (KeyDict.mk (KeyMeta.keytype meta)
               (keyid_spec E (KeyMeta.keytype meta) (KeyMeta.keyval meta))
               (KeyMeta.keyval meta))
    else Raise FormatError.
Proof.
  unfold create_from_metadata_format, _get_keyid, create_in_metadata_format.
  destruct (formats.KEY_SCHEMA (tuf_formats E) meta); [| reflexivity].
  destruct (formats.KEYTYPE_SCHEMA (tuf_formats E) (KeyMeta.keytype meta));
    [| reflexivity].
  destruct (formats.KEYVAL_SCHEMA (tuf_formats E) (KeyMeta.keyval meta));
    reflexivity.
Qed.

Lemma create_from_metadata_format_valid (E : Env) (meta : KeyMeta.t) :
  formats.KEY_SCHEMA (tuf_formats E) meta = true ->
  formats.KEYTYPE_SCHEMA (tuf_formats E) (KeyMeta.keytype meta) = true ->
  formats.KEYVAL_SCHEMA (tuf_formats E) (KeyMeta.keyval meta) = true ->
  create_from_metadata_format E meta
  = Ok (KeyDict.mk (KeyMeta.keytype meta)
          (keyid_spec E (KeyMeta.keytype meta) (KeyMeta.keyval meta))
          (KeyMeta.keyval meta)).
Proof.
  intros Hmeta Hkt Hkv. unfold create_from_metadata_format.
  rewrite Hmeta. cbn [formats.check_match bind].
  rewrite get_keyid_valid by assumption. reflexivity.
Qed.

Lemma truthy_false_empty (s : string) : truthy s = false -> s = "".
Proof. destruct s; [reflexivity | discriminate]. Qed.




(** X11.  Dropping the private key keeps the identity of a key: for a key
    type and key value whose full and public-only metadata forms pass the
    format checks, the record loaded from the public-only metadata has the
    same key type, public component and keyid as the record loaded from the
    metadata that includes the private key, and an empty private
    component. *)
Theorem public_metadata_same_keyid
    (E : Env) (keytype : string) (key_value : KeyVal.t) :
  formats.KEYTYPE_SCHEMA (tuf_formats E) keytype = true ->
  formats.KEYVAL_SCHEMA (tuf_formats E) key_value = true ->
  formats.KEYVAL_SCHEMA (tuf_formats E) (public_only key_value) = true ->
  formats.KEY_SCHEMA (tuf_formats E) (KeyMeta.mk keytype key_value) = true ->
  formats.KEY_SCHEMA (tuf_formats E)
    (KeyMeta.mk keytype (public_only key_value)) = true ->
  exists meta_public meta_full key_public key_full,
    create_in_metadata_format E keytype key_value false = Ok meta_public
    /\ create_in_metadata_format E keytype key_value true = Ok meta_full
    /\ create_from_metadata_format E meta_public = Ok key_public
    /\ create_from_metadata_format E meta_full = Ok key_full
    /\ KeyDict.keyid key_public = KeyDict.keyid key_full
    /\ KeyDict.keytype key_public = KeyDict.keytype key_full
    /\ KeyVal.public (KeyDict.keyval key_public)
       = KeyVal.public (KeyDict.keyval key_full)
    /\ KeyVal.private (KeyDict.keyval key_public) = ""
    /\ KeyDict.keyval key_full = key_value.
Proof.
  intros Hkt Hkv Hpub Hfull Hmeta.
  rewrite !create_in_metadata_format_valid by assumption.
  cbn [andb]. fold (public_only key_value).
  pose proof (create_from_metadata_format_valid E
                (KeyMeta.mk keytype (public_only key_value)) Hmeta Hkt Hpub)
    as Hload_public.
  destruct (truthy (KeyVal.private key_value)) eqn:Hpriv.
  - pose proof (create_from_metadata_format_valid E
                  (KeyMeta.mk keytype key_value) Hfull Hkt Hkv) as Hload_full.
    do 4 eexists. split; [reflexivity |]. split; [reflexivity |].
    split; [exact Hload_public |]. split; [exact Hload_full |].
    repeat split.
  - apply truthy_false_empty in Hpriv.
    do 4 eexists. split; [reflexivity |]. split; [reflexivity |].
    split; [exact Hload_public |]. split; [exact Hload_public |].
    repeat split.
    destruct key_value as [public private]. cbn in Hpriv. subst private.
    reflexivity.
Qed.

Lemma public_metadata_same_keyid_witness :
  exists meta_public meta_full key_public key_full,
    create_in_metadata_format doc_env "rsa" (KeyVal.mk "PEM" "secret") false
    = Ok meta_public
    /\ create_in_metadata_format doc_env "rsa" (KeyVal.mk "PEM" "secret") true
       = Ok meta_full
    /\ create_from_metadata_format doc_env meta_public = Ok key_public
    /\ create_from_metadata_format doc_env meta_full = Ok key_full
    /\ KeyDict.keyid key_public = KeyDict.keyid key_full
    /\ KeyDict.keytype key_public = KeyDict.keytype key_full
    /\ KeyVal.public (KeyDict.keyval key_public)
       = KeyVal.public (KeyDict.keyval key_full)
    /\ KeyVal.private (KeyDict.keyval key_public) = ""
    /\ KeyDict.keyval key_full = KeyVal.mk "PEM" "secret".
Proof.
  apply (public_metadata_same_keyid doc_env "rsa" (KeyVal.mk "PEM" "secret"));
    reflexivity.
Defined.

(** *** What verification looks at *)

(** X12.  [verify_signature] never compares the keyid of the signature
    record with the keyid of the key record, and uses neither: two key
    records that differ at most in their keyid, and two signature records
    that differ at most in their keyid, all treated alike by the format
    checks, give the same result for every data. *)
Theorem verify_signature_ignores_keyid
    (E : Env) (key1 key2 : KeyDict.t) (signature1 signature2 : Signature.t)
    (data : string) :
  KeyDict.keytype key1 = KeyDict.keytype key2 ->
  KeyDict.keyval key1 = KeyDict.keyval key2 ->
  Signature.method signature1 = Signature.method signature2 ->
  Signature.sig signature1 = Signature.sig signature2 ->
  formats.ANYKEY_SCHEMA (tuf_formats E) key1
  = formats.ANYKEY_SCHEMA (tuf_formats E) key2 ->
  formats.SIGNATURE_SCHEMA (tuf_formats E) signature1
  = formats.SIGNATURE_SCHEMA (tuf_formats E) signature2 ->
  verify_signature E key1 signature1 data
  = verify_signature E key2 signature2 data.
Proof.
  intros Hkt Hkv Hmethod Hraw Hkey Hsig. unfold verify_signature.
  rewrite Hkey, Hsig, Hkt, Hkv, Hmethod, Hraw. reflexivity.
Qed.

Lemma verify_signature_ignores_keyid_witness :
  verify_signature doc_env
    (KeyDict.mk "rsa" "7273617c736565647c" (KeyVal.mk "seed" "seed"))
    (Signature.mk "7273617c736565647c" "PyCrypto-PKCS#1 PSS" "73656564666f78")
    "fox"
  = verify_signature doc_env
      (KeyDict.mk "rsa" "00" (KeyVal.mk "seed" "seed"))
      (Signature.mk "ff" "PyCrypto-PKCS#1 PSS" "73656564666f78")
      "fox".
Proof.
  apply (verify_signature_ignores_keyid doc_env
           (KeyDict.mk "rsa" "7273617c736565647c" (KeyVal.mk "seed" "seed"))
           (KeyDict.mk "rsa" "00" (KeyVal.mk "seed" "seed"))
           (Signature.mk "7273617c736565647c" "PyCrypto-PKCS#1 PSS"
              "73656564666f78")
           (Signature.mk "ff" "PyCrypto-PKCS#1 PSS" "73656564666f78"));
    reflexivity.
Defined.

(** X13.  A signature record whose [sig] is not an even number of
    hexadecimal digits makes [verify_signature] raise a [TypeError], not
    return [False]: once the two format checks have passed, it raises
    [TypeError('Odd-length string')] for an odd length and
    [TypeError('Non-hexadecimal digit found')] otherwise, whatever the key
    type, the configuration and the providers are. *)
Theorem verify_signature_undecodable_sig
    (E : Env) (key : KeyDict.t) (signature : Signature.t) (data : string) :
  formats.ANYKEY_SCHEMA (tuf_formats E) key = true ->
  formats.SIGNATURE_SCHEMA (tuf_formats E) signature = true ->
  hex_string (Signature.sig signature) = false ->
  verify_signature E key signature data
  = Raise (TypeError
             (if Nat.odd (String.length (Signature.sig signature))
              then "Odd-length string"
              else "Non-hexadecimal digit found")).
Proof.
  intros Hkey Hsig Hbad. unfold verify_signature.
  rewrite Hkey, Hsig. cbn [formats.check_match bind].
  destruct (unhexlify_cases (Signature.sig signature)) as (_ & Hodd & Hdigit).
  unfold hex_string in Hbad.
  destruct (Nat.odd (String.length (Signature.sig signature))) eqn:Ho.
  - rewrite (Hodd eq_refl). reflexivity.
  - cbn [negb andb] in Hbad. rewrite (Hdigit eq_refl Hbad). reflexivity.
Qed.

Lemma verify_signature_undecodable_sig_witness :
  verify_signature doc_env
    (KeyDict.mk "rsa" "7273617c736565647c" (KeyVal.mk "seed" "seed"))
    (Signature.mk "7273617c736565647c" "PyCrypto-PKCS#1 PSS" "73656564666f7g")
    "fox"
  = Raise (TypeError
             (if Nat.odd (String.length "73656564666f7g")
              then "Odd-length string"
              else "Non-hexadecimal digit found")).
Proof.
  apply (verify_signature_undecodable_sig doc_env
           (KeyDict.mk "rsa" "7273617c736565647c" (KeyVal.mk "seed" "seed"))
           (Signature.mk "7273617c736565647c" "PyCrypto-PKCS#1 PSS"
              "73656564666f7g")
           "fox");
    reflexivity.
Defined.

Example verify_tampered_sig_raises :
  verify_signature doc_env
    (KeyDict.mk "rsa" "7273617c736565647c" (KeyVal.mk "seed" "seed"))
    (Signature.mk "7273617c736565647c" "PyCrypto-PKCS#1 PSS" "73656564666f7g")
    "fox"
  = Raise (TypeError "Non-hexadecimal digit found").
Proof. reflexivity. Qed.

Example verify_tampered_sig_false :
  verify_signature doc_env
    (KeyDict.mk "rsa" "7273617c736565647c" (KeyVal.mk "seed" "seed"))
    (Signature.mk "7273617c736565647c" "PyCrypto-PKCS#1 PSS" "73656564666f79")
    "fox"
  = Ok false.
Proof. reflexivity. Qed.

(** *** Signing with the generated key, verifying with the published one *)

Lemma generated_key_signs
    (E : Env) (key : KeyDict.t) (rng : entropy) (data : string) :
  rsa_provider_correct (tuf_pycrypto_keys E) ->
  ed25519_provider_correct (tuf_ed25519_keys E) ->
  generated E key ->
  formats.ANYKEY_SCHEMA (tuf_formats E) key = true ->
  exists signature,
    create_signature E rng key data = Ok signature
    /\ Signature.keyid signature = KeyDict.keyid key
    /\ forall key' : KeyDict.t,
         KeyDict.keytype key' = KeyDict.keytype key ->
         KeyVal.public (KeyDict.keyval key')
         = KeyVal.public (KeyDict.keyval key) ->
         formats.ANYKEY_SCHEMA (tuf_formats E) key' = true ->
         formats.SIGNATURE_SCHEMA (tuf_formats E) signature = true ->
         forall data',
           verify_signature E key' signature data'
           = Ok (if string_dec data' data then true else false).
Proof.
  intros Hrsa Hed Hgen Hkey.
  destruct Hgen as [(rng0 & bits & H) | (rng0 & H)].
  - apply generate_rsa_key_Ok_inv in H
      as (public & private & keyid & _ & Hcheck & Hpair & _ & ->).
    destruct (Hrsa rng0 bits public private Hpair rng data)
      as (sig & method & Hsign & Hsame & Hother).
    pose proof (create_signature_rsa E rng _ data Hkey Hcheck eq_refl)
      as Hcreate.
    cbn [KeyDict.keyval KeyDict.keyid KeyVal.private] in Hcreate.
    rewrite Hsign in Hcreate. cbn [bind] in Hcreate.
    exists (Signature.mk keyid method (binascii.hexlify sig)).
    split; [exact Hcreate |]. split; [reflexivity |].
    intros key' Hkt Hpub Hkey' Hsig data'.
    cbn [KeyDict.keytype KeyDict.keyval KeyVal.public] in Hkt, Hpub.
    destruct (check_crypto_libraries_inv E tt Hcheck) as (Hlib & _).
    rewrite (verify_signature_rsa E key' _ data' sig Hkey' Hsig
               (unhexlify_hexlify sig) Hkt Hlib).
    cbn [Signature.method]. rewrite Hpub.
    destruct (string_dec data' data) as [-> | Hne];
      [exact Hsame | apply Hother; exact Hne].
  - apply generate_ed25519_key_Ok_inv in H
      as (public & private & keyid & Hcheck & Hpair & _ & ->).
    destruct (Hed rng0 _ public private Hpair data (signing_use_pynacl E))
      as (sig & method & Hsign & Hverified).
    pose proof (create_signature_ed25519 E rng _ data public private
                  Hkey Hcheck eq_refl
                  (unhexlify_hexlify public) (unhexlify_hexlify private))
      as Hcreate.
    cbn [KeyDict.keyid] in Hcreate.
    rewrite Hsign in Hcreate. cbn [bind] in Hcreate.
    exists (Signature.mk keyid method (binascii.hexlify sig)).
    split; [exact Hcreate |]. split; [reflexivity |].
    intros key' Hkt Hpub Hkey' Hsig data'.
    cbn [KeyDict.keytype KeyDict.keyval KeyVal.public] in Hkt, Hpub.
    assert (Hdecode : binascii.unhexlify (KeyVal.public (KeyDict.keyval key'))
                      = Ok public).
    { rewrite Hpub. apply unhexlify_hexlify. }
    rewrite (verify_signature_ed25519 E key' _ data' sig public Hkey' Hsig
               (unhexlify_hexlify sig) Hkt Hdecode).
    cbn [Signature.method].
    destruct (Hverified (verifying_use_pynacl E)) as [Hsame Hother].
    destruct (string_dec data' data) as [-> | Hne];
      [exact Hsame | apply Hother; exact Hne].
Qed.

(** X14.  The functions compose as a signer and a verifier use them.  With
    correct providers and a format validator that accepts the records
    involved: for a generated key record [key], the metadata written
    without the private key carries an empty private component; the record
    a verifier loads from that metadata is [key] without its private
    component, with the same keyid; a signature made with [key] names that
    keyid; and the verifier's record accepts the signature for the signed
    data and rejects it for every other data. *)
Theorem publish_then_verify
    (E : Env) (key : KeyDict.t) (rng : entropy) (data : string) :
  rsa_provider_correct (tuf_pycrypto_keys E) ->
  ed25519_provider_correct (tuf_ed25519_keys E) ->
  generated E key ->
  formats.ANYKEY_SCHEMA (tuf_formats E) key = true ->
  formats.ANYKEY_SCHEMA (tuf_formats E) (public_record key) = true ->
  formats.KEYVAL_SCHEMA (tuf_formats E) (KeyDict.keyval key) = true ->
  formats.KEY_SCHEMA (tuf_formats E)
    (KeyMeta.mk (KeyDict.keytype key) (public_only (KeyDict.keyval key)))
  = true ->
  (forall signature,
     create_signature E rng key data = Ok signature ->
     formats.SIGNATURE_SCHEMA (tuf_formats E) signature = true) ->
  exists (meta : KeyMeta.t) (verifier_key : KeyDict.t)
         (signature : Signature.t),
    create_in_metadata_format E (KeyDict.keytype key) (KeyDict.keyval key)
      false = Ok meta
    /\ KeyVal.private (KeyMeta.keyval meta) = ""
    /\ create_from_metadata_format E meta = Ok verifier_key
    /\ verifier_key = public_record key
    /\ create_signature E rng key data = Ok signature
    /\ Signature.keyid signature = KeyDict.keyid verifier_key
    /\ verify_signature E verifier_key signature data = Ok true
    /\ forall data', data' <> data ->
         verify_signature E verifier_key signature data' = Ok false.
Proof.
  intros Hrsa Hed Hgen Hkey Hkey' Hkv Hmeta Hconform.
  destruct (generated_keyid E key Hgen) as (Hkt & Hpub & Hid).
  destruct (generated_key_signs E key rng data Hrsa Hed Hgen Hkey)
    as (signature & Hcreate & Hsid & Hverify).
  exists (KeyMeta.mk (KeyDict.keytype key) (public_only (KeyDict.keyval key))),
    (public_record key), signature.
  split.
  { rewrite create_in_metadata_format_valid by assumption. reflexivity. }
  split; [reflexivity |].
  split.
  { rewrite create_from_metadata_format_valid by assumption.
    cbn [KeyMeta.keytype KeyMeta.keyval]. unfold public_record.
    rewrite Hid. reflexivity. }
  split; [reflexivity |].
  split; [exact Hcreate |].
  split; [exact Hsid |].
  pose proof (Hverify (public_record key) eq_refl eq_refl Hkey'
                (Hconform signature Hcreate)) as Hv.
  split.
  - rewrite Hv. destruct (string_dec data data); [reflexivity | congruence].
  - intros data' Hne. rewrite Hv.
    destruct (string_dec data' data); [contradiction | reflexivity].
Qed.

Lemma publish_then_verify_witness :
  exists (meta : KeyMeta.t) (verifier_key : KeyDict.t)
         (signature : Signature.t),
    create_in_metadata_format doc_env "rsa" (KeyVal.mk "seed" "seed") false
    = Ok meta
    /\ KeyVal.private (KeyMeta.keyval meta) = ""
    /\ create_from_metadata_format doc_env meta = Ok verifier_key
    /\ verifier_key
       = public_record
           (KeyDict.mk "rsa" "7273617c736565647c" (KeyVal.mk "seed" "seed"))
    /\ create_signature doc_env "salt"
         (KeyDict.mk "rsa" "7273617c736565647c" (KeyVal.mk "seed" "seed")) "fox"
       = Ok signature
    /\ Signature.keyid signature = KeyDict.keyid verifier_key
    /\ verify_signature doc_env verifier_key signature "fox" = Ok true
    /\ forall data', data' <> "fox" ->
         verify_signature doc_env verifier_key signature data' = Ok false.
Proof.
  apply (publish_then_verify doc_env
           (KeyDict.mk "rsa" "7273617c736565647c" (KeyVal.mk "seed" "seed"))
           "salt" "fox").
  - exact doc_pycrypto_keys_correct.
  - exact doc_ed25519_keys_correct.
  - left. exists "seed", 2048%Z. reflexivity.
  - reflexivity.
  - reflexivity.
  - reflexivity.
  - reflexivity.
  - intros signature _. reflexivity.
Defined.

(** X15.  The keyid of a generated record is fixed by its key type and
    public component: two records returned by the generators, in whatever
    calls and with whatever private components, that agree on key type and
    public component have the same keyid. *)
Theorem generated_same_public_same_keyid (E : Env) (key1 key2 : KeyDict.t) :
  generated E key1 ->
  generated E key2 ->
  KeyDict.keytype key1 = KeyDict.keytype key2 ->
  KeyVal.public (KeyDict.keyval key1) = KeyVal.public (KeyDict.keyval key2) ->
  KeyDict.keyid key1 = KeyDict.keyid key2.
Proof.
  intros Hgen1 Hgen2 Hkt Hpub.
  destruct (generated_keyid E key1 Hgen1) as (_ & _ & ->).
  destruct (generated_keyid E key2 Hgen2) as (_ & _ & ->).
  unfold keyid_spec. rewrite Hkt, Hpub. reflexivity.
Qed.

Lemma generated_same_public_same_keyid_witness :
  exists key1 key2 : KeyDict.t,
    generate_rsa_key shared_public_env "first" 2048 = Ok key1
    /\ generate_rsa_key shared_public_env "second" 4096 = Ok key2
    /\ KeyVal.public (KeyDict.keyval key1) = KeyVal.public (KeyDict.keyval key2)
    /\ KeyVal.private (KeyDict.keyval key1)
       <> KeyVal.private (KeyDict.keyval key2)
    /\ KeyDict.keyid key1 = KeyDict.keyid key2.
Proof.
  exists (KeyDict.mk "rsa" "7273617c50454d7c" (KeyVal.mk "PEM" "first")),
    (KeyDict.mk "rsa" "7273617c50454d7c" (KeyVal.mk "PEM" "second")).
  split; [reflexivity |]. split; [reflexivity |]. split; [reflexivity |].
  split; [discriminate |].
  apply (generated_same_public_same_keyid shared_public_env
           (KeyDict.mk "rsa" "7273617c50454d7c" (KeyVal.mk "PEM" "first"))
           (KeyDict.mk "rsa" "7273617c50454d7c" (KeyVal.mk "PEM" "second"))).
  - left. exists "first", 2048%Z. reflexivity.
  - left. exists "second", 4096%Z. reflexivity.
  - reflexivity.
  - reflexivity.
Defined.
